(** * ScriptBoard front end: state container, resource client and page flows

    A shallow embedding of the client-side logic of the ScriptBoard
    single-page application:

    - [types/index.ts]            the data model (module per interface);
    - [contexts/AppContext.tsx]   the application state container;
    - [services/api.ts]           the resource client [ApiService];
    - [pages/DashboardPage.tsx]   the handlers of [DashboardPage] and of
                                  [EditorPage];
    - [components/layout]         the theme toggle and the sidebar's active item;
    - [pages/AuthPages.tsx]       the validation of the sign-in and sign-up forms;
    - the session store ([contexts/AuthContext.tsx]), whose source is not
      at hand, as far as its documented contract goes.

    Conventions of the embedding.

    - A JavaScript string is a [string]: one [ascii] per UTF-16 code unit,
      for code units below 256.  [String.length] is the [.length] property.
    - [T | null], [T | undefined] and optional fields [f?: T] are [option T].
    - A React state cell is a field of a state record; a setter called with a
      value overwrites the field, a setter called with an updater function
      applies it to the current value.  An event handler is one transition
      of the state record: the values its closure captured are those of the
      state it starts from.
    - An [await]ed request has one of two outcomes, fixed by the remote side:
      the promise resolves with a response body, or it rejects with an
      error.  The outcome is an argument of the operation that awaits it.
    - [new Date().toISOString()] is an argument [now] of the handler that
      reads the clock. *)

From Stdlib Require Import Ascii.
From stdpp Require Import base option list strings pretty gmap fin_maps.

Set Default Proof Using "Type".

(** ** JavaScript values *)

Module Js.

(** [ToBoolean] on a string: only the empty string is falsy. *)
Definition truthy (s : string) : bool :=
  match s with
  | EmptyString => false
  | String _ _ => true
  end.

(** [ToBoolean] on [string | null | undefined]. *)
Definition truthy_opt (o : option string) : bool :=
  match o with
  | Some s => truthy s
  | None => false
  end.

(** [o || d] for [o : string | null | undefined] and a string [d]. *)
Definition or_default (o : option string) (d : string) : string :=
  match o with
  | Some s => if truthy s then s else d
  | None => d
  end.

(** [o || undefined] for [o : string | null]. *)
Definition or_undefined (o : option string) : option string :=
  match o with
  | Some s => if truthy s then Some s else None
  | None => None
  end.

(** [WhiteSpace] and [LineTerminator] code units below 256:
    TAB, LF, VT, FF, CR, SP and NBSP. *)
Definition is_white_space (c : ascii) : bool :=
  match N_of_ascii c with
  | 9%N | 10%N | 11%N | 12%N | 13%N | 32%N | 160%N => true
  | _ => false
  end.

Fixpoint trimStart (s : string) : string :=
  match s with
  | EmptyString => EmptyString
  | String c s' => if is_white_space c then trimStart s' else s
  end.

Definition trimEnd (s : string) : string :=
  String.rev (trimStart (String.rev s)).

(** [String.prototype.trim]. *)
Definition trim (s : string) : string := trimEnd (trimStart s).

(** [s.startsWith(p)]. *)
Definition startsWith (s p : string) : bool := String.prefix p s.

(** [`${n}`] for a non-negative integral number. *)
Definition of_number (n : nat) : string := pretty n.

End Js.

(** ** Data model ([types/index.ts]) *)

Module User.
Record t := mk {
  id : string;
  email : string;
  username : string;
  createdAt : string;
  updatedAt : string
}.
End User.

Module LoginRequest.
Record t := mk { email : string; password : string }.
End LoginRequest.

Module RegisterRequest.
Record t := mk { username : string; email : string; password : string }.
End RegisterRequest.

Module AuthResponse.
Record t := mk { user : User.t; token : string }.
End AuthResponse.

Inductive ShotType :=
| EXTREME_WIDE | WIDE | MEDIUM_WIDE | MEDIUM | MEDIUM_CLOSE | CLOSE_UP
| EXTREME_CLOSE_UP | INSERT | CUTAWAY | OVER_SHOULDER | TWO_SHOT | MASTER_SHOT.

Inductive CameraAngle :=
| EYE_LEVEL | HIGH_ANGLE | LOW_ANGLE | BIRD_EYE | WORM_EYE | DUTCH_ANGLE
| ANGLE_OVER_SHOULDER | POINT_OF_VIEW.

Inductive TimeOfDay :=
| DAWN | MORNING | DAY | AFTERNOON | EVENING | NIGHT | LATE_NIGHT.

(** Numbers carried by the data model ([sceneNumber], [duration],
  [processingTime], ...) are never computed with; they are non-negative
  integral values here. *)
Module StoryboardScene.
Record t := mk {
  id : string;
  sceneNumber : nat;
  description : string;
  shotType : ShotType;
  cameraAngle : CameraAngle;
  duration : nat;
  notes : option string;
  characters : list string;
  location : string;
  timeOfDay : TimeOfDay;
  movement : option string;
  dialogue : option string
}.
End StoryboardScene.

Module Project.
Record t := mk {
  id : string;
  name : string;
  description : option string;
  scriptContent : string;
  storyboardData : option (list StoryboardScene.t);
  createdAt : string;
  updatedAt : string;
  userId : string
}.
End Project.

Module CreateProjectRequest.
Record t := mk {
  name : string;
  description : option string;
  scriptContent : option string
}.
End CreateProjectRequest.

(** [Partial<CreateProjectRequest>], the shape of the form's error record. *)
Module CreateProjectErrors.
Record t := mk {
  name : option string;
  description : option string;
  scriptContent : option string
}.
Definition empty : t := mk None None None.
End CreateProjectErrors.

Module UpdateProjectRequest.
Record t := mk {
  name : option string;
  description : option string;
  scriptContent : option string
}.
End UpdateProjectRequest.

(** [ApiResponse<T>]: the envelope of a single resource. *)
Module ApiResponse.
Record t (T : Type) := mk {
  success : bool;
  data : option T;
  message : option string;
  error : option string
}.
Arguments mk {T}.
Arguments success {T}.
Arguments data {T}.
Arguments message {T}.
Arguments error {T}.
End ApiResponse.

Module Pagination.
Record t := mk { page : nat; limit : nat; total : nat; totalPages : nat }.
End Pagination.

(** [PaginatedResponse<T>]: the envelope of a list; it has no [message]. *)
Module PaginatedResponse.
Record t (T : Type) := mk {
  success : bool;
  data : list T;
  pagination : Pagination.t
}.
Arguments mk {T}.
Arguments success {T}.
Arguments data {T}.
Arguments pagination {T}.
End PaginatedResponse.

Inductive ShotStyle := cinematic | documentary | commercial.
Inductive Pacing := slow | medium | fast.
Inductive Complexity := simple | standard | complex.

Module ConversionOptions.
Record t := mk {
  shotStyle : option ShotStyle;
  pacing : option Pacing;
  complexity : option Complexity
}.
End ConversionOptions.

Module ConversionRequest.
Record t := mk {
  projectId : string;
  scriptContent : string;
  options : option ConversionOptions.t
}.
End ConversionRequest.

Module ConversionMetadata.
Record t := mk {
  totalScenes : nat;
  estimatedDuration : nat;
  shotBreakdown : ShotType -> nat
}.
End ConversionMetadata.

Module ConversionResponse.
Record t := mk {
  success : bool;
  storyboard : list StoryboardScene.t;
  processingTime : nat;
  metadata : option ConversionMetadata.t
}.
End ConversionResponse.

Inductive ExportFormat := pdf | excel | word.

Module ExportOptions.
Record t := mk {
  includeImages : option bool;
  includeNotes : option bool;
  template : option string
}.
End ExportOptions.

Module ExportRequest.
Record t := mk {
  projectId : string;
  format : ExportFormat;
  options : option ExportOptions.t
}.
End ExportRequest.

Module ExportResponse.
Record t := mk {
  success : bool;
  downloadUrl : string;
  filename : string;
  fileSize : nat
}.
End ExportResponse.

(** The result of [uploadFile]: [{ url: string; filename: string }]. *)
Module UploadResult.
Record t := mk { url : string; filename : string }.
End UploadResult.

(** The result of [healthCheck]: [{ status: string; timestamp: string }]. *)
Module Health.
Record t := mk { status : string; timestamp : string }.
End Health.

(** [AppError]; [details?: any] is an uninspected payload, kept as text. *)
Module AppError.
Record t := mk {
  code : string;
  message : string;
  details : option string;
  timestamp : string
}.
End AppError.

Module UIState.
Record t := mk {
  isLoading : bool;
  error : option AppError.t;
  success : option string
}.
End UIState.

(** A dropped [File]: its name and its text content. *)
Module File.
Record t := mk { name : string; text : string }.
End File.

(** ** The browser

  [localStorage] is a finite map from keys to values; [location_href] is
  [window.location.href]; [network] is the log of the requests handed to
  the HTTP client, oldest first. *)

Inductive Method := GET | POST | PUT | DELETE.

Module Request.
Record t := mk {
  method : Method;
  url : string;
  authorization : option string
}.
End Request.

Module Browser.
Record t := mk {
  localStorage : gmap string string;
  location_href : string;
  network : list Request.t
}.

Definition getItem (k : string) (w : t) : option string :=
  localStorage w !! k.

Definition setItem (k v : string) (w : t) : t :=
  mk (<[k := v]> (localStorage w)) (location_href w) (network w).

Definition removeItem (k : string) (w : t) : t :=
  mk (delete k (localStorage w)) (location_href w) (network w).

(** [Object.keys(localStorage)]. *)
Definition keys (w : t) : list string := (map_to_list (localStorage w)).*1.

(** [window.location.href = url]. *)
Definition navigate (url : string) (w : t) : t :=
  mk (localStorage w) url (network w).

Definition send (r : Request.t) (w : t) : t :=
  mk (localStorage w) (location_href w) (network w ++ [r]).
End Browser.

(** ** The document

    [document.documentElement.classList], a set of class names. *)

Module Document.
Record t := mk { classList : gset string }.

(** [classList.add(c)]. *)
Definition add (c : string) (d : t) : t := mk ({[c]} ∪ classList d).

(** [classList.remove(c)]. *)
Definition remove (c : string) (d : t) : t := mk (classList d ∖ {[c]}).

(** [classList.contains(c)]. *)
Definition contains (c : string) (d : t) : bool := bool_decide (c ∈ classList d).
End Document.

(** ** The application state container ([contexts/AppContext.tsx]) *)

Module AppContext.

(** The state cells of [AppProvider]. *)
Record t := mk {
  uiState : UIState.t;
  currentProject : option Project.t;
  projects : list Project.t;
  cacheEnabled : bool;
  theme : string;
  uploadProgress : nat
}.

(** The initial values of the cells; the theme is read from storage. *)
Definition init (w : Browser.t) : t :=
  mk (UIState.mk false None None) None [] true
     (Js.or_default (Browser.getItem "theme" w) "light") 0.

Definition setUiState (f : UIState.t -> UIState.t) (s : t) : t :=
  mk (f (uiState s)) (currentProject s) (projects s) (cacheEnabled s)
     (theme s) (uploadProgress s).

Definition setCurrentProject (p : option Project.t) (s : t) : t :=
  mk (uiState s) p (projects s) (cacheEnabled s) (theme s)
     (uploadProgress s).

Definition updProjects (f : list Project.t -> list Project.t) (s : t) : t :=
  mk (uiState s) (currentProject s) (f (projects s)) (cacheEnabled s)
     (theme s) (uploadProgress s).

Definition setProjects (l : list Project.t) : t -> t :=
  updProjects (fun _ => l).

Definition setCacheEnabled (b : bool) (s : t) : t :=
  mk (uiState s) (currentProject s) (projects s) b (theme s)
     (uploadProgress s).

Definition setUploadProgress (n : nat) (s : t) : t :=
  mk (uiState s) (currentProject s) (projects s) (cacheEnabled s)
     (theme s) n.

Definition setLoading (loading : bool) : t -> t :=
  setUiState (fun prev =>
    UIState.mk loading (UIState.error prev) (UIState.success prev)).

(** [error || undefined]: an [AppError] object is always truthy. *)
Definition setError (error : option AppError.t) : t -> t :=
  setUiState (fun prev => UIState.mk (UIState.isLoading prev) error None).

Definition setSuccess (message : option string) : t -> t :=
  setUiState (fun prev =>
    UIState.mk (UIState.isLoading prev) None (Js.or_undefined message)).

Definition clearMessages : t -> t :=
  setUiState (fun prev => UIState.mk (UIState.isLoading prev) None None).

(** [currentProject?.id === projectId]. *)
Definition current_has_id (projectId : string) (s : t) : bool :=
  match currentProject s with
  | Some c => bool_decide (Project.id c = projectId)
  | None => false
  end.

Definition updateProject (updatedProject : Project.t) (s : t) : t :=
  let s1 :=
    updProjects
      (fmap (fun project =>
               if decide (Project.id project = Project.id updatedProject)
               then updatedProject else project)) s in
  if current_has_id (Project.id updatedProject) s
  then setCurrentProject (Some updatedProject) s1
  else s1.

Definition removeProject (projectId : string) (s : t) : t :=
  let s1 :=
    updProjects
      (filter (fun project => Project.id project ≠ projectId)) s in
  if current_has_id projectId s
  then setCurrentProject None s1
  else s1.

(** [clearCache]: one [removeItem] per key that starts with ["cache_"].
    [window] is [Some] browser, or [None] where [typeof window] is
    ['undefined']. *)
Definition clearCache_step (w : Browser.t) (key : string) : Browser.t :=
  if Js.startsWith key "cache_" then Browser.removeItem key w else w.

Definition clearCache (window : option Browser.t) : option Browser.t :=
  match window with
  | Some w => Some (foldl clearCache_step w (Browser.keys w))
  | None => None
  end.

(** The mutators of [uiState], as data, and a run of a sequence of them. *)
Inductive UiMutation :=
| SetLoading (loading : bool)
| SetError (error : option AppError.t)
| SetSuccess (message : option string)
| ClearMessages.

Definition apply (m : UiMutation) : t -> t :=
  match m with
  | SetLoading b => setLoading b
  | SetError e => setError e
  | SetSuccess msg => setSuccess msg
  | ClearMessages => clearMessages
  end.

Definition run (ms : list UiMutation) (s : t) : t := foldl (fun s m => apply m s) s ms.

Definition writes_message (m : UiMutation) : bool :=
  match m with
  | SetError _ | SetSuccess _ => true
  | _ => false
  end.

(** Both message slots of [uiState] are occupied. *)
Definition both_set (s : t) : bool :=
  match UIState.error (uiState s), UIState.success (uiState s) with
  | Some _, Some _ => true
  | _, _ => false
  end.

Definition setTheme (newTheme : string) (s : t) : t :=
  mk (uiState s) (currentProject s) (projects s) (cacheEnabled s) newTheme
     (uploadProgress s).

(** The class of the document follows the theme: the body shared by
    [handleSetTheme] and by the effect that runs on mount and whenever
    [theme] changes. *)
Definition apply_theme_class (theme : string) (d : Document.t) : Document.t :=
  if String.eqb theme "dark"
  then Document.add "dark" d
  else Document.remove "dark" d.

(** [handleSetTheme], exposed by the provider as [setTheme]: the state
    cell, the persisted preference and the class of the document. *)
Definition handleSetTheme (newTheme : string)
    (x : Browser.t * Document.t * t) : Browser.t * Document.t * t :=
  let '(w, d, s) := x in
  (Browser.setItem "theme" newTheme w,
   apply_theme_class newTheme d,
   setTheme newTheme s).

End AppContext.

(** ** The resource client ([services/api.ts]) *)

(** A thrown [Error]: its [message] and, for an error raised by the HTTP
    client for a response, [error.response?.status]. *)
Module JsError.
Record t := mk { message : string; response_status : option nat }.

(** [new Error(message)]. *)
Definition Error (message : string) : t := mk message None.
End JsError.

(** How an awaited request settles. *)
Inductive Outcome (B : Type) :=
| Resolved (body : B)
| Rejected (error : JsError.t).
Arguments Resolved {B}.
Arguments Rejected {B}.

(** How a call of an [async] operation settles. *)
Inductive Result (A : Type) :=
| Return (a : A)
| Throw (e : JsError.t).
Arguments Return {A}.
Arguments Throw {A}.

Module Api.

Definition getToken (w : Browser.t) : option string :=
  Browser.getItem "auth_token" w.

Definition setToken (token : string) (w : Browser.t) : Browser.t :=
  Browser.setItem "auth_token" token w.

Definition clearToken (w : Browser.t) : Browser.t :=
  Browser.removeItem "auth_token" w.

(** The request interceptor: the bearer header, when a token is stored. *)
Definition request_interceptor (m : Method) (url : string) (w : Browser.t)
  : Request.t :=
  Request.mk m url
    (match getToken w with
     | Some token => if Js.truthy token then Some ("Bearer " +:+ token) else None
     | None => None
     end).

(** The response interceptor, on rejection:
    [if (error.response?.status === 401) { clearToken(); href = '/login' }]. *)
Definition response_interceptor (error : JsError.t) (w : Browser.t)
  : Browser.t :=
  if decide (JsError.response_status error = Some 401)
  then Browser.navigate "/login" (clearToken w)
  else w.

(** [await this.api.<method>(url, ...)]: the request passes the request
    interceptor and is sent; the outcome passes the response interceptor. *)
Definition request {B : Type} (m : Method) (url : string) (o : Outcome B)
    (w : Browser.t) : Browser.t * Result B :=
  let w1 := Browser.send (request_interceptor m url w) w in
  match o with
  | Resolved body => (w1, Return body)
  | Rejected error => (response_interceptor error w1, Throw error)
  end.

(** [if (response.data.success && response.data.data) return response.data.data;
     throw new Error(response.data.message || default)]. *)
Definition data_or_throw {T : Type} (default : string)
    (r : Browser.t * Result (ApiResponse.t T)) : Browser.t * Result T :=
  match r with
  | (w, Throw e) => (w, Throw e)
  | (w, Return response) =>
      match ApiResponse.success response, ApiResponse.data response with
      | true, Some d => (w, Return d)
      | _, _ =>
          (w, Throw (JsError.Error
                       (Js.or_default (ApiResponse.message response) default)))
      end
  end.

(** [if (!response.data.success) throw new Error(response.data.message || default)]. *)
Definition success_or_throw {T : Type} (default : string)
    (r : Browser.t * Result (ApiResponse.t T)) : Browser.t * Result unit :=
  match r with
  | (w, Throw e) => (w, Throw e)
  | (w, Return response) =>
      if ApiResponse.success response
      then (w, Return tt)
      else (w, Throw (JsError.Error
                        (Js.or_default (ApiResponse.message response) default)))
  end.

(** [setToken(response.data.data.token)] before the data is returned. *)
Definition store_token (r : Browser.t * Result AuthResponse.t)
  : Browser.t * Result AuthResponse.t :=
  match r with
  | (w, Return d) => (setToken (AuthResponse.token d) w, Return d)
  | (w, Throw e) => (w, Throw e)
  end.

Definition login (credentials : LoginRequest.t)
    (o : Outcome (ApiResponse.t AuthResponse.t)) (w : Browser.t)
  : Browser.t * Result AuthResponse.t :=
  store_token (data_or_throw "Login failed" (request POST "/auth/login" o w)).

Definition register (userData : RegisterRequest.t)
    (o : Outcome (ApiResponse.t AuthResponse.t)) (w : Browser.t)
  : Browser.t * Result AuthResponse.t :=
  store_token
    (data_or_throw "Registration failed" (request POST "/auth/register" o w)).

(** [try { await post('/auth/logout') } finally { clearToken() }]. *)
Definition logout (o : Outcome (ApiResponse.t unit)) (w : Browser.t)
  : Browser.t * Result unit :=
  match request POST "/auth/logout" o w with
  | (w1, Return _) => (clearToken w1, Return tt)
  | (w1, Throw e) => (clearToken w1, Throw e)
  end.

Definition getProfile (o : Outcome (ApiResponse.t User.t)) (w : Browser.t)
  : Browser.t * Result User.t :=
  data_or_throw "Failed to get profile" (request GET "/auth/profile" o w).

Definition getProjects (page limit : nat)
    (o : Outcome (PaginatedResponse.t Project.t)) (w : Browser.t)
  : Browser.t * Result (PaginatedResponse.t Project.t) :=
  request GET
    ("/projects?page=" +:+ Js.of_number page +:+ "&limit=" +:+ Js.of_number limit)
    o w.

Definition getProject (id : string) (o : Outcome (ApiResponse.t Project.t))
    (w : Browser.t) : Browser.t * Result Project.t :=
  data_or_throw "Failed to get project" (request GET ("/projects/" +:+ id) o w).

Definition createProject (projectData : CreateProjectRequest.t)
    (o : Outcome (ApiResponse.t Project.t)) (w : Browser.t)
  : Browser.t * Result Project.t :=
  data_or_throw "Failed to create project" (request POST "/projects" o w).

Definition updateProject (id : string) (projectData : UpdateProjectRequest.t)
    (o : Outcome (ApiResponse.t Project.t)) (w : Browser.t)
  : Browser.t * Result Project.t :=
  data_or_throw "Failed to update project" (request PUT ("/projects/" +:+ id) o w).

Definition deleteProject (id : string) (o : Outcome (ApiResponse.t unit))
    (w : Browser.t) : Browser.t * Result unit :=
  success_or_throw "Failed to delete project"
    (request DELETE ("/projects/" +:+ id) o w).

Definition convertScript (conversionData : ConversionRequest.t)
    (o : Outcome (ApiResponse.t ConversionResponse.t)) (w : Browser.t)
  : Browser.t * Result ConversionResponse.t :=
  data_or_throw "Failed to convert script"
    (request POST
       ("/projects/" +:+ ConversionRequest.projectId conversionData +:+ "/convert")
       o w).

Definition getStoryboard (projectId : string)
    (o : Outcome (ApiResponse.t (list StoryboardScene.t))) (w : Browser.t)
  : Browser.t * Result (list StoryboardScene.t) :=
  data_or_throw "Failed to get storyboard"
    (request GET ("/projects/" +:+ projectId +:+ "/storyboard") o w).

Definition updateStoryboard (projectId : string)
    (storyboard : list StoryboardScene.t)
    (o : Outcome (ApiResponse.t (list StoryboardScene.t))) (w : Browser.t)
  : Browser.t * Result (list StoryboardScene.t) :=
  data_or_throw "Failed to update storyboard"
    (request PUT ("/projects/" +:+ projectId +:+ "/storyboard") o w).

Definition uploadFile (file : File.t) (projectId : option string)
    (o : Outcome (ApiResponse.t UploadResult.t)) (w : Browser.t)
  : Browser.t * Result UploadResult.t :=
  data_or_throw "Failed to upload file" (request POST "/files/upload" o w).

Definition exportProject (exportData : ExportRequest.t)
    (o : Outcome (ApiResponse.t ExportResponse.t)) (w : Browser.t)
  : Browser.t * Result ExportResponse.t :=
  data_or_throw "Failed to export project"
    (request POST
       ("/projects/" +:+ ExportRequest.projectId exportData +:+ "/export") o w).

Definition clearCache (projectId : option string)
    (o : Outcome (ApiResponse.t unit)) (w : Browser.t)
  : Browser.t * Result unit :=
  let endpoint :=
    match projectId with
    | Some p => if Js.truthy p then "/cache/project/" +:+ p else "/cache/clear"
    | None => "/cache/clear"
    end in
  success_or_throw "Failed to clear cache" (request DELETE endpoint o w).

Definition healthCheck (o : Outcome Health.t) (w : Browser.t)
  : Browser.t * Result Health.t :=
  request GET "/health" o w.

End Api.

(** *** The operations of the client as data

    A [Call.t] is one invocation of a public method of [ApiService] with its
    arguments; [Call.Body c] is the declared type of the response body the
    method awaits and [Call.Ret c] the type of the value it returns. *)

Module Call.

Inductive t :=
| login (credentials : LoginRequest.t)
| register (userData : RegisterRequest.t)
| logout
| getProfile
| getProjects (page limit : nat)
| getProject (id : string)
| createProject (projectData : CreateProjectRequest.t)
| updateProject (id : string) (projectData : UpdateProjectRequest.t)
| deleteProject (id : string)
| convertScript (conversionData : ConversionRequest.t)
| getStoryboard (projectId : string)
| updateStoryboard (projectId : string) (storyboard : list StoryboardScene.t)
| uploadFile (file : File.t) (projectId : option string)
| exportProject (exportData : ExportRequest.t)
| clearCache (projectId : option string)
| healthCheck.

Definition Body (c : t) : Type :=
  match c with
  | login _ | register _ => ApiResponse.t AuthResponse.t
  | logout => ApiResponse.t unit
  | getProfile => ApiResponse.t User.t
  | getProjects _ _ => PaginatedResponse.t Project.t
  | getProject _ | createProject _ | updateProject _ _ => ApiResponse.t Project.t
  | deleteProject _ | clearCache _ => ApiResponse.t unit
  | convertScript _ => ApiResponse.t ConversionResponse.t
  | getStoryboard _ | updateStoryboard _ _ => ApiResponse.t (list StoryboardScene.t)
  | uploadFile _ _ => ApiResponse.t UploadResult.t
  | exportProject _ => ApiResponse.t ExportResponse.t
  | healthCheck => Health.t
  end.

Definition Ret (c : t) : Type :=
  match c with
  | login _ | register _ => AuthResponse.t
  | logout => unit
  | getProfile => User.t
  | getProjects _ _ => PaginatedResponse.t Project.t
  | getProject _ | createProject _ | updateProject _ _ => Project.t
  | deleteProject _ | clearCache _ => unit
  | convertScript _ => ConversionResponse.t
  | getStoryboard _ | updateStoryboard _ _ => list StoryboardScene.t
  | uploadFile _ _ => UploadResult.t
  | exportProject _ => ExportResponse.t
  | healthCheck => Health.t
  end.

Definition run (c : t) : Outcome (Body c) -> Browser.t -> Browser.t * Result (Ret c) :=
  match c with
  | login credentials => Api.login credentials
  | register userData => Api.register userData
  | logout => Api.logout
  | getProfile => Api.getProfile
  | getProjects page limit => Api.getProjects page limit
  | getProject id => Api.getProject id
  | createProject projectData => Api.createProject projectData
  | updateProject id projectData => Api.updateProject id projectData
  | deleteProject id => Api.deleteProject id
  | convertScript conversionData => Api.convertScript conversionData
  | getStoryboard projectId => Api.getStoryboard projectId
  | updateStoryboard projectId storyboard => Api.updateStoryboard projectId storyboard
  | uploadFile file projectId => Api.uploadFile file projectId
  | exportProject exportData => Api.exportProject exportData
  | clearCache projectId => Api.clearCache projectId
  | healthCheck => Api.healthCheck
  end.

(** The [success] flag and the [message] field of a response body, where the
    body is an envelope: a [PaginatedResponse] has no [message], the body of
    [healthCheck] is no envelope. *)
Definition envelope (c : t) : Body c -> option (bool * option string) :=
  match c with
  | getProjects _ _ => fun b => Some (PaginatedResponse.success b, None)
  | healthCheck => fun _ => None
  | _ => fun b => Some (ApiResponse.success b, ApiResponse.message b)
  end.

(** The literal on the right of [response.data.message || ...] in the
    method, for the methods that throw on an envelope. *)
Definition default_message (c : t) : option string :=
  match c with
  | login _ => Some "Login failed"
  | register _ => Some "Registration failed"
  | getProfile => Some "Failed to get profile"
  | getProject _ => Some "Failed to get project"
  | createProject _ => Some "Failed to create project"
  | updateProject _ _ => Some "Failed to update project"
  | deleteProject _ => Some "Failed to delete project"
  | convertScript _ => Some "Failed to convert script"
  | getStoryboard _ => Some "Failed to get storyboard"
  | updateStoryboard _ _ => Some "Failed to update storyboard"
  | uploadFile _ _ => Some "Failed to upload file"
  | exportProject _ => Some "Failed to export project"
  | clearCache _ => Some "Failed to clear cache"
  | logout | getProjects _ _ | healthCheck => None
  end.

(** The method and the URL of the request the method builds. *)
Definition endpoint (c : t) : Method * string :=
  match c with
  | login _ => (POST, "/auth/login")
  | register _ => (POST, "/auth/register")
  | logout => (POST, "/auth/logout")
  | getProfile => (GET, "/auth/profile")
  | getProjects page limit =>
      (GET, "/projects?page=" +:+ Js.of_number page
              +:+ "&limit=" +:+ Js.of_number limit)
  | getProject id => (GET, "/projects/" +:+ id)
  | createProject _ => (POST, "/projects")
  | updateProject id _ => (PUT, "/projects/" +:+ id)
  | deleteProject id => (DELETE, "/projects/" +:+ id)
  | convertScript conversionData =>
      (POST, "/projects/" +:+ ConversionRequest.projectId conversionData
               +:+ "/convert")
  | getStoryboard projectId => (GET, "/projects/" +:+ projectId +:+ "/storyboard")
  | updateStoryboard projectId _ =>
      (PUT, "/projects/" +:+ projectId +:+ "/storyboard")
  | uploadFile _ _ => (POST, "/files/upload")
  | exportProject exportData =>
      (POST, "/projects/" +:+ ExportRequest.projectId exportData +:+ "/export")
  | clearCache projectId =>
      (DELETE,
       match projectId with
       | Some p => if Js.truthy p then "/cache/project/" +:+ p else "/cache/clear"
       | None => "/cache/clear"
       end)
  | healthCheck => (GET, "/health")
  end.

(** [response.data.data.token] of a resolved [login] or [register] whose
    envelope has [success] and [data]: the token the method stores. *)
Definition issued_token (c : t) : Outcome (Body c) -> option string :=
  match c with
  | login _ | register _ => fun o =>
      match o with
      | Resolved r =>
          if ApiResponse.success r
          then AuthResponse.token <$> ApiResponse.data r
          else None
      | Rejected _ => None
      end
  | _ => fun _ => None
  end.

(** What the method returns for a resolved body whose [success] is true:
    [response.data.data] where the method returns it (absent when the
    envelope has none), the body itself for [getProjects] and
    [healthCheck], nothing for the methods of type [Promise<void>]. *)
Definition payload (c : t) : Body c -> option (Ret c) :=
  match c with
  | login _ | register _ => fun b => ApiResponse.data b
  | logout => fun _ => Some tt
  | getProfile => fun b => ApiResponse.data b
  | getProjects _ _ => fun b => Some b
  | getProject _ | createProject _ | updateProject _ _ => fun b => ApiResponse.data b
  | deleteProject _ | clearCache _ => fun _ => Some tt
  | convertScript _ => fun b => ApiResponse.data b
  | getStoryboard _ | updateStoryboard _ _ => fun b => ApiResponse.data b
  | uploadFile _ _ => fun b => ApiResponse.data b
  | exportProject _ => fun b => ApiResponse.data b
  | healthCheck => fun b => Some b
  end.

End Call.

(** ** The session store *)

Module AuthContext.

(** Modelled from the spec: the state of the session store
    ([contexts/AuthContext.tsx] is not among the sources): the authenticated
    identity, absent when unauthenticated, and the flag that is true during
    the initial session restoration. *)
Record t := mk { user : option User.t; isLoading : bool }.

(** Modelled from the spec: [isAuthenticated] is derived from the presence
    of the identity. *)
Definition isAuthenticated (a : t) : bool :=
  match user a with
  | Some _ => true
  | None => false
  end.

(** Modelled from the spec: on process start the store attempts to restore
    a session from a persisted token and a profile fetch; if there is
    nothing to restore from, or the restoration fails, the state is
    unauthenticated and no error is surfaced. *)
Definition restore (profile : Outcome (ApiResponse.t User.t)) (w : Browser.t)
  : Browser.t * t :=
  if Js.truthy_opt (Api.getToken w)
  then match Api.getProfile profile w with
       | (w1, Return u) => (w1, mk (Some u) false)
       | (w1, Throw _) => (w1, mk None false)
       end
  else (w, mk None false).

End AuthContext.

(** ** The dashboard's create-project flow ([pages/DashboardPage.tsx]) *)

Module DashboardPage.

(** The browser, the application state container and the page's own cells. *)
Record t := mk {
  browser : Browser.t;
  app : AppContext.t;
  isCreateModalOpen : bool;
  isDeleteModalOpen : bool;
  selectedProject : option Project.t;
  dropdownOpen : option string;
  createForm : CreateProjectRequest.t;
  createErrors : CreateProjectErrors.t
}.

Definition with_browser (w : Browser.t) (st : t) : t :=
  mk w (app st) (isCreateModalOpen st) (isDeleteModalOpen st)
     (selectedProject st) (dropdownOpen st) (createForm st) (createErrors st).

Definition with_app (f : AppContext.t -> AppContext.t) (st : t) : t :=
  mk (browser st) (f (app st)) (isCreateModalOpen st) (isDeleteModalOpen st)
     (selectedProject st) (dropdownOpen st) (createForm st) (createErrors st).

Definition setIsCreateModalOpen (b : bool) (st : t) : t :=
  mk (browser st) (app st) b (isDeleteModalOpen st)
     (selectedProject st) (dropdownOpen st) (createForm st) (createErrors st).

Definition setCreateForm (f : CreateProjectRequest.t) (st : t) : t :=
  mk (browser st) (app st) (isCreateModalOpen st) (isDeleteModalOpen st)
     (selectedProject st) (dropdownOpen st) f (createErrors st).

Definition setCreateErrors (e : CreateProjectErrors.t) (st : t) : t :=
  mk (browser st) (app st) (isCreateModalOpen st) (isDeleteModalOpen st)
     (selectedProject st) (dropdownOpen st) (createForm st) e.

(** The [errors] object built by [validateCreateForm]. *)
Definition errors_of (form : CreateProjectRequest.t) : CreateProjectErrors.t :=
  let name := CreateProjectRequest.name form in
  CreateProjectErrors.mk
    (if negb (Js.truthy (Js.trim name))
     then Some "Project name is required"
     else if String.length name <? 3
          then Some "Project name must be at least 3 characters"
          else None)
    (match CreateProjectRequest.description form with
     | Some d =>
         if Js.truthy d && (500 <? String.length d)
         then Some "Description must be less than 500 characters"
         else None
     | None => None
     end)
    None.

(** [Object.keys(errors).length === 0]. *)
Definition no_errors (e : CreateProjectErrors.t) : bool :=
  match CreateProjectErrors.name e, CreateProjectErrors.description e,
        CreateProjectErrors.scriptContent e with
  | None, None, None => true
  | _, _, _ => false
  end.

Definition validateCreateForm (st : t) : t * bool :=
  let errors := errors_of (createForm st) in
  (setCreateErrors errors st, no_errors errors).

Definition handleCreateProject (o : Outcome (ApiResponse.t Project.t))
    (now : string) (st : t) : t :=
  let '(st1, valid) := validateCreateForm st in
  if negb valid then st1
  else
    let st2 := with_app (AppContext.setLoading true) st1 in
    let st3 :=
      match Api.createProject (createForm st) o (browser st2) with
      | (w, Return newProject) =>
          setCreateErrors CreateProjectErrors.empty
            (setCreateForm (CreateProjectRequest.mk "" (Some "") (Some ""))
               (setIsCreateModalOpen false
                  (with_app (AppContext.setSuccess
                               (Some "Project created successfully!"))
                     (with_app (AppContext.setProjects
                                  (AppContext.projects (app st) ++ [newProject]))
                        (with_browser w st2)))))
      | (w, Throw error) =>
          with_app (AppContext.setError
                      (Some (AppError.mk "CREATE_PROJECT_ERROR"
                               (JsError.message error) None now)))
            (with_browser w st2)
      end in
    with_app (AppContext.setLoading false) st3.

Definition setIsDeleteModalOpen (b : bool) (st : t) : t :=
  mk (browser st) (app st) (isCreateModalOpen st) b
     (selectedProject st) (dropdownOpen st) (createForm st) (createErrors st).

Definition setSelectedProject (p : option Project.t) (st : t) : t :=
  mk (browser st) (app st) (isCreateModalOpen st) (isDeleteModalOpen st)
     p (dropdownOpen st) (createForm st) (createErrors st).

(** [loadProjects]: [getProjects()] is called with its default arguments,
    page 1 and limit 10. *)
Definition loadProjects (o : Outcome (PaginatedResponse.t Project.t))
    (now : string) (st : t) : t :=
  let st1 := with_app (AppContext.setLoading true) st in
  let st2 :=
    match Api.getProjects 1 10 o (browser st1) with
    | (w, Return response) =>
        with_app (AppContext.setProjects (PaginatedResponse.data response))
          (with_browser w st1)
    | (w, Throw error) =>
        with_app (AppContext.setError
                    (Some (AppError.mk "LOAD_PROJECTS_ERROR"
                             (JsError.message error) None now)))
          (with_browser w st1)
    end in
  with_app (AppContext.setLoading false) st2.

Definition handleDeleteProject (o : Outcome (ApiResponse.t unit))
    (now : string) (st : t) : t :=
  match selectedProject st with
  | None => st
  | Some selected =>
      let st1 := with_app (AppContext.setLoading true) st in
      let st2 :=
        match Api.deleteProject (Project.id selected) o (browser st1) with
        | (w, Return _) =>
            setSelectedProject None
              (setIsDeleteModalOpen false
                 (with_app (AppContext.setSuccess
                              (Some "Project deleted successfully!"))
                    (with_app (AppContext.removeProject (Project.id selected))
                       (with_browser w st1))))
        | (w, Throw error) =>
            with_app (AppContext.setError
                        (Some (AppError.mk "DELETE_PROJECT_ERROR"
                                 (JsError.message error) None now)))
              (with_browser w st1)
        end in
      with_app (AppContext.setLoading false) st2
  end.

End DashboardPage.

(** ** The editor's convert flow ([EditorPage]) *)

Module FileUpload.
Inductive status := pending | uploading | success | error.
Record t := mk {
  file : File.t;
  progress : nat;
  status_of : status;
  error_of : option string
}.
End FileUpload.

Module EditorPage.

Record t := mk {
  browser : Browser.t;
  app : AppContext.t;
  scriptContent : string;
  storyboard : list StoryboardScene.t;
  isConverting : bool;
  isExportModalOpen : bool;
  fileUpload : option FileUpload.t;
  conversionOptions : ConversionOptions.t
}.

(** The initial values of the page's cells. *)
Definition init (w : Browser.t) (a : AppContext.t) : t :=
  mk w a "" [] false false None
     (ConversionOptions.mk (Some cinematic) (Some medium) (Some standard)).

Definition with_browser (w : Browser.t) (st : t) : t :=
  mk w (app st) (scriptContent st) (storyboard st) (isConverting st)
     (isExportModalOpen st) (fileUpload st) (conversionOptions st).

Definition with_app (f : AppContext.t -> AppContext.t) (st : t) : t :=
  mk (browser st) (f (app st)) (scriptContent st) (storyboard st)
     (isConverting st) (isExportModalOpen st) (fileUpload st)
     (conversionOptions st).

Definition setStoryboard (l : list StoryboardScene.t) (st : t) : t :=
  mk (browser st) (app st) (scriptContent st) l (isConverting st)
     (isExportModalOpen st) (fileUpload st) (conversionOptions st).

Definition setIsConverting (b : bool) (st : t) : t :=
  mk (browser st) (app st) (scriptContent st) (storyboard st) b
     (isExportModalOpen st) (fileUpload st) (conversionOptions st).

(** The request built by [handleConvertScript] for the open project. *)
Definition conversionRequest (currentProject : Project.t) (st : t)
  : ConversionRequest.t :=
  ConversionRequest.mk (Project.id currentProject) (scriptContent st)
    (Some (conversionOptions st)).

Definition handleConvertScript (o : Outcome (ApiResponse.t ConversionResponse.t))
    (now : string) (st : t) : t :=
  match AppContext.currentProject (app st),
        Js.truthy (Js.trim (scriptContent st)) with
  | Some currentProject, true =>
      let st1 := setIsConverting true st in
      let st2 :=
        match Api.convertScript (conversionRequest currentProject st) o
                (browser st1) with
        | (w, Return response) =>
            with_app
              (AppContext.setSuccess
                 (Some ("Generated "
                          +:+ Js.of_number
                                (length (ConversionResponse.storyboard response))
                          +:+ " scenes in "
                          +:+ Js.of_number
                                (ConversionResponse.processingTime response)
                          +:+ "ms")))
              (setStoryboard (ConversionResponse.storyboard response)
                 (with_browser w st1))
        | (w, Throw error) =>
            with_app
              (AppContext.setError
                 (Some (AppError.mk "CONVERT_ERROR" (JsError.message error)
                          None now)))
              (with_browser w st1)
        end in
      setIsConverting false st2
  | _, _ =>
      with_app
        (AppContext.setError
           (Some (AppError.mk "CONVERT_ERROR"
                    "Please enter a script before converting" None now)))
        st
  end.

Definition setScriptContent (s : string) (st : t) : t :=
  mk (browser st) (app st) s (storyboard st) (isConverting st)
     (isExportModalOpen st) (fileUpload st) (conversionOptions st).

Definition setFileUpload (u : option FileUpload.t) (st : t) : t :=
  mk (browser st) (app st) (scriptContent st) (storyboard st) (isConverting st)
     (isExportModalOpen st) u (conversionOptions st).

(** [loadProject], for the [projectId] of the route. *)
Definition loadProject (projectId : option string)
    (o : Outcome (ApiResponse.t Project.t)) (now : string) (st : t) : t :=
  match projectId with
  | Some id =>
      if negb (Js.truthy id) then st
      else
        let st1 := with_app (AppContext.setLoading true) st in
        let st2 :=
          match Api.getProject id o (browser st1) with
          | (w, Return project) =>
              let st3 :=
                setScriptContent
                  (Js.or_default (Some (Project.scriptContent project)) "")
                  (with_app (AppContext.setCurrentProject (Some project))
                     (with_browser w st1)) in
              match Project.storyboardData project with
              | Some scenes => setStoryboard scenes st3
              | None => st3
              end
          | (w, Throw error) =>
              with_app (AppContext.setError
                          (Some (AppError.mk "LOAD_PROJECT_ERROR"
                                   (JsError.message error) None now)))
                (with_browser w st1)
          end in
        with_app (AppContext.setLoading false) st2
  | None => st
  end.

Definition handleSaveProject (o : Outcome (ApiResponse.t Project.t))
    (now : string) (st : t) : t :=
  match AppContext.currentProject (app st) with
  | None => st
  | Some currentProject =>
      let st1 := with_app (AppContext.setLoading true) st in
      let st2 :=
        match Api.updateProject (Project.id currentProject)
                (UpdateProjectRequest.mk None None (Some (scriptContent st)))
                o (browser st1) with
        | (w, Return updatedProject) =>
            with_app (AppContext.setSuccess (Some "Project saved successfully!"))
              (with_app (AppContext.updateProject updatedProject)
                 (with_browser w st1))
        | (w, Throw error) =>
            with_app (AppContext.setError
                        (Some (AppError.mk "SAVE_PROJECT_ERROR"
                                 (JsError.message error) None now)))
              (with_browser w st1)
        end in
      with_app (AppContext.setLoading false) st2
  end.

(** [handleFileUpload]: the first dropped file is uploaded; when the upload
    returns, the file is read as text and the text becomes the script. *)
Definition handleFileUpload (files : list File.t)
    (o : Outcome (ApiResponse.t UploadResult.t)) (now : string) (st : t) : t :=
  match files with
  | [] => st
  | file :: _ =>
      let upload := FileUpload.mk file 0 FileUpload.uploading None in
      let st1 :=
        with_app (AppContext.setUploadProgress 0)
          (setFileUpload (Some upload) st) in
      match Api.uploadFile file
              (Project.id <$> AppContext.currentProject (app st)) o
              (browser st1) with
      | (w, Return response) =>
          with_app (AppContext.setSuccess
                      (Some "File uploaded and content loaded successfully!"))
            (setFileUpload
               (Some (FileUpload.mk file 100 FileUpload.success None))
               (with_app (AppContext.setUploadProgress 100)
                  (setScriptContent (File.text file) (with_browser w st1))))
      | (w, Throw error) =>
          with_app (AppContext.setError
                      (Some (AppError.mk "UPLOAD_ERROR" (JsError.message error)
                               None now)))
            (setFileUpload
               (Some (FileUpload.mk file 0 FileUpload.error
                        (Some (JsError.message error))))
               (with_browser w st1))
      end
  end.

End EditorPage.

(** ** The layout components ([components/layout]) *)

Module Layout.

(** [Header.toggleTheme]: [setTheme(theme === 'light' ? 'dark' : 'light')]. *)
Definition toggleTheme (x : Browser.t * Document.t * AppContext.t)
  : Browser.t * Document.t * AppContext.t :=
  AppContext.handleSetTheme
    (if String.eqb (AppContext.theme x.2) "light" then "dark" else "light") x.

(** The [href]s of [Sidebar]'s navigation items. *)
Definition navigation : list string := ["/dashboard"; "/editor"; "/settings"].

(** [Sidebar.isActive]:
    [pathname === path || pathname.startsWith(path + '/')]. *)
Definition isActive (pathname path : string) : bool :=
  bool_decide (pathname = path) || Js.startsWith pathname (path +:+ "/").

End Layout.

(** ** Regular expressions

    The fragment of the regular expressions of JavaScript that the forms
    use, over code units: character classes, sequence, alternative and
    repetition.  [test r s] is [r.test(s)] for an expression without flags:
    whether some substring of [s] matches.  The matcher works by
    derivatives. *)

Module Regex.

Inductive t :=
| Fail
| Eps
| Sym (p : ascii -> bool)
| Cat (r1 r2 : t)
| Alt (r1 r2 : t)
| Star (r : t).

(** [r+]. *)
Definition Plus (r : t) : t := Cat r (Star r).

(** A literal character. *)
Definition Chr (c : ascii) : t := Sym (Ascii.eqb c).

(** [\S]: a code unit that is not white space. *)
Definition NotSpace : t := Sym (fun c => negb (Js.is_white_space c)).

Fixpoint nullable (r : t) : bool :=
  match r with
  | Fail => false
  | Eps => true
  | Sym _ => false
  | Cat r1 r2 => nullable r1 && nullable r2
  | Alt r1 r2 => nullable r1 || nullable r2
  | Star _ => true
  end.

Fixpoint deriv (c : ascii) (r : t) : t :=
  match r with
  | Fail => Fail
  | Eps => Fail
  | Sym p => if p c then Eps else Fail
  | Cat r1 r2 =>
      if nullable r1
      then Alt (Cat (deriv c r1) r2) (deriv c r2)
      else Cat (deriv c r1) r2
  | Alt r1 r2 => Alt (deriv c r1) (deriv c r2)
  | Star r1 => Cat (deriv c r1) (Star r1)
  end.

(** Some prefix of [s] matches [r]. *)
Fixpoint match_prefix (r : t) (s : list ascii) : bool :=
  nullable r
  || match s with
     | [] => false
     | c :: s' => match_prefix (deriv c r) s'
     end.

(** Some substring of [s] matches [r]. *)
Fixpoint search (r : t) (s : list ascii) : bool :=
  match_prefix r s
  || match s with
     | [] => false
     | _ :: s' => search r s'
     end.

Definition test (r : t) (s : string) : bool :=
  search r (String.list_ascii_of_string s).

(** The strings an expression matches. *)
Inductive matches : t -> list ascii -> Prop :=
| matches_Eps : matches Eps []
| matches_Sym p c : p c = true -> matches (Sym p) [c]
| matches_Cat r1 r2 s1 s2 :
    matches r1 s1 -> matches r2 s2 -> matches (Cat r1 r2) (s1 ++ s2)
| matches_Alt_l r1 r2 s : matches r1 s -> matches (Alt r1 r2) s
| matches_Alt_r r1 r2 s : matches r2 s -> matches (Alt r1 r2) s
| matches_Star_nil r : matches (Star r) []
| matches_Star_cons r s1 s2 :
    matches r s1 -> matches (Star r) s2 -> matches (Star r) (s1 ++ s2).

End Regex.

(** ** The sign-in and sign-up forms ([pages/AuthPages.tsx]) *)

Module AuthPages.

(** [/\S+@\S+\.\S+/]. *)
Definition email_re : Regex.t :=
  Regex.Cat (Regex.Plus Regex.NotSpace)
    (Regex.Cat (Regex.Chr "@")
       (Regex.Cat (Regex.Plus Regex.NotSpace)
          (Regex.Cat (Regex.Chr ".") (Regex.Plus Regex.NotSpace)))).

(** The checks on the e-mail and the password, shared by both forms. *)
Definition email_error (email : string) : option string :=
  if negb (Js.truthy email) then Some "Email is required"
  else if negb (Regex.test email_re email)
       then Some "Please enter a valid email address"
       else None.

Definition password_error (password : string) : option string :=
  if negb (Js.truthy password) then Some "Password is required"
  else if String.length password <? 6
       then Some "Password must be at least 6 characters"
       else None.

Module LoginPage.

(** [Partial<LoginRequest>]. *)
Record Errors := mkErrors { email : option string; password : option string }.

Record t := mk {
  formData : LoginRequest.t;
  errors : Errors;
  isLoading : bool;
  error : string
}.

Definition setErrors (e : Errors) (st : t) : t :=
  mk (formData st) e (isLoading st) (error st).

Definition newErrors (form : LoginRequest.t) : Errors :=
  mkErrors (email_error (LoginRequest.email form))
           (password_error (LoginRequest.password form)).

Definition validateForm (st : t) : t * bool :=
  let e := newErrors (formData st) in
  (setErrors e st,
   match email e, password e with
   | None, None => true
   | _, _ => false
   end).

End LoginPage.

Module RegisterPage.

(** [Partial<RegisterRequest & { confirmPassword: string }>]. *)
Record Errors := mkErrors {
  username : option string;
  email : option string;
  password : option string;
  confirmPassword_error : option string
}.

Record t := mk {
  formData : RegisterRequest.t;
  confirmPassword : string;
  errors : Errors;
  isLoading : bool;
  error : string
}.

Definition setErrors (e : Errors) (st : t) : t :=
  mk (formData st) (confirmPassword st) e (isLoading st) (error st).

Definition newErrors (form : RegisterRequest.t) (confirm : string) : Errors :=
  mkErrors
    (if negb (Js.truthy (RegisterRequest.username form))
     then Some "Username is required"
     else if String.length (RegisterRequest.username form) <? 3
          then Some "Username must be at least 3 characters"
          else None)
    (email_error (RegisterRequest.email form))
    (password_error (RegisterRequest.password form))
    (if negb (Js.truthy confirm)
     then Some "Please confirm your password"
     else if negb (String.eqb (RegisterRequest.password form) confirm)
          then Some "Passwords do not match"
          else None).

Definition validateForm (st : t) : t * bool :=
  let e := newErrors (formData st) (confirmPassword st) in
  (setErrors e st,
   match username e, email e, password e, confirmPassword_error e with
   | None, None, None, None => true
   | _, _, _, _ => false
   end).

End RegisterPage.

End AuthPages.

(** ** Sample states and responses

    Concrete values on which the operations are evaluated below. *)

Definition browser0 : Browser.t :=
  Browser.mk
    (<["auth_token" := "t0k3n"]>
       (<["theme" := "dark"]>
          (<["cache_projects" := "[]"]> (<["cache_" := "x"]> ∅))))
    "/dashboard" [].

Definition project_a : Project.t :=
  Project.mk "a" "Pilot" None "INT. LAB - DAY" None "2024-01-01" "2024-01-01" "u1".

Definition project_b : Project.t :=
  Project.mk "b" "Sequel" (Some "second") "" None "2024-01-02" "2024-01-02" "u1".

Definition project_a' : Project.t :=
  Project.mk "a" "Pilot, revised" None "INT. LAB - NIGHT" None "2024-01-01"
    "2024-02-01" "u1".

Definition project_c : Project.t :=
  Project.mk "c" "Unknown" None "" None "2024-01-03" "2024-01-03" "u2".

Definition error0 : AppError.t :=
  AppError.mk "LOAD_PROJECTS_ERROR" "Network Error" None "2024-01-01T00:00:00.000Z".

Definition app0 : AppContext.t :=
  AppContext.mk (UIState.mk false (Some error0) (Some "Saved"))
    (Some project_a) [project_a; project_b; project_a] true "dark" 0.

Definition failed_page : PaginatedResponse.t Project.t :=
  PaginatedResponse.mk false [] (Pagination.mk 1 10 0 0).

Definition failed_envelope {T : Type} (m : option string) : ApiResponse.t T :=
  ApiResponse.mk false None m None.

Definition credentials0 : LoginRequest.t :=
  LoginRequest.mk "ada@example.org" "secret".

Definition unauthorized : JsError.t :=
  JsError.mk "Request failed with status code 401" (Some 401).

Definition dashboard0 : DashboardPage.t :=
  DashboardPage.mk browser0 app0 true false None None
    (CreateProjectRequest.mk "ab" (Some "") (Some "")) CreateProjectErrors.empty.

Definition created : ApiResponse.t Project.t :=
  ApiResponse.mk true (Some project_c) None None.

Definition scene1 : StoryboardScene.t :=
  StoryboardScene.mk "s1" 1 "Ada enters the lab" WIDE EYE_LEVEL 4 None ["Ada"]
    "Lab" DAY None None.

Definition scene2 : StoryboardScene.t :=
  StoryboardScene.mk "s2" 2 "Close on the console" CLOSE_UP HIGH_ANGLE 2
    (Some "flicker") [] "Lab" NIGHT None (Some "It works.").

Definition editor0 : EditorPage.t :=
  EditorPage.mk browser0 app0 "INT. LAB - DAY" [scene1] false false None
    (ConversionOptions.mk (Some cinematic) (Some medium) (Some standard)).

Definition converted : ApiResponse.t ConversionResponse.t :=
  ApiResponse.mk true (Some (ConversionResponse.mk true [scene2; scene1] 120 None))
    None None.

Definition auth0 : AuthResponse.t :=
  AuthResponse.mk
    (User.mk "u1" "ada@example.org" "ada" "2024-01-01" "2024-01-01") "fresh".

Definition logged_in : ApiResponse.t AuthResponse.t :=
  ApiResponse.mk true (Some auth0) None None.

Definition app1 : AppContext.t :=
  AppContext.mk (UIState.mk false None None) (Some project_b)
    [project_a; project_b] true "light" 0.

Definition document0 : Document.t := Document.mk ∅.

Definition dashboard1 : DashboardPage.t :=
  DashboardPage.mk browser0 app1 true true (Some project_b) None
    (CreateProjectRequest.mk "  x" (Some "third") (Some "")) CreateProjectErrors.empty.

Definition project_d : Project.t :=
  Project.mk "d" "Draft" None "EXT. ROOF - DAWN" None "2024-01-04" "2024-01-04" "u1".

Definition file0 : File.t := File.mk "scene.txt" "INT. KITCHEN - MORNING".

(** ** Predicates of the statements below *)

(** The session is over in the browser: no token is stored and the browser
    has been sent to the sign-in page. *)
Definition session_ended (w : Browser.t) : Prop :=
  Api.getToken w = None ∧ Browser.location_href w = "/login".

(** ** Proof automation: unfolding the operations of the client *)

Create HintDb api discriminated.

#[local] Hint Unfold
  Api.login Api.register Api.logout Api.getProfile Api.getProjects
  Api.getProject Api.createProject Api.updateProject Api.deleteProject
  Api.convertScript Api.getStoryboard Api.updateStoryboard Api.uploadFile
  Api.exportProject Api.clearCache Api.healthCheck
  Api.store_token Api.data_or_throw Api.success_or_throw Api.request : api.

Ltac unfold_api := autounfold with api in *; simpl in *.

(** * Properties *)

(** ** The message slots of [uiState] *)

Lemma truthy_nonempty (m : string) : m ≠ "" → Js.truthy m = true.
Proof. by destruct m. Qed.

Lemma both_set_setLoading b s :
  AppContext.both_set (AppContext.setLoading b s) = AppContext.both_set s.
Proof. done. Qed.

Lemma both_set_setError e s :
  AppContext.both_set (AppContext.setError e s) = false.
Proof. unfold AppContext.both_set; simpl. by destruct e. Qed.

Lemma both_set_setSuccess m s :
  AppContext.both_set (AppContext.setSuccess m s) = false.
Proof. done. Qed.

Lemma both_set_clearMessages s :
  AppContext.both_set (AppContext.clearMessages s) = false.
Proof. done. Qed.

Lemma both_set_apply m s :
  AppContext.both_set s = false →
  AppContext.both_set (AppContext.apply m s) = false.
Proof.
  destruct m; simpl; intros Hs.
  - by rewrite both_set_setLoading.
  - apply both_set_setError.
  - apply both_set_setSuccess.
  - apply both_set_clearMessages.
Qed.

Lemma both_set_apply_write m s :
  AppContext.writes_message m = true →
  AppContext.both_set (AppContext.apply m s) = false.
Proof.
  destruct m; simpl; try discriminate; intros _.
  - apply both_set_setError.
  - apply both_set_setSuccess.
Qed.

Lemma run_snoc ms m s :
  AppContext.run (ms ++ [m]) s = AppContext.apply m (AppContext.run ms s).
Proof. unfold AppContext.run. by rewrite foldl_app. Qed.

Lemma both_set_run ms s :
  AppContext.both_set s = false →
  AppContext.both_set (AppContext.run ms s) = false.
Proof.
  induction ms as [|m ms IH] using rev_ind; [done|].
  intros Hs. rewrite run_snoc. apply both_set_apply. by apply IH.
Qed.

Lemma both_set_run_writes ms s :
  ms ≠ [] →
  forallb AppContext.writes_message ms = true →
  AppContext.both_set (AppContext.run ms s) = false.
Proof.
  destruct ms as [|m ms _] using rev_ind; [done|].
  intros _ Hw. rewrite run_snoc. apply both_set_apply_write.
  rewrite forallb_app in Hw. simpl in Hw.
  apply andb_true_iff in Hw as [_ Hm]. by apply andb_true_iff in Hm as [Hm _].
Qed.

(** C2, as stated, fails on the empty message: [setSuccess("")] is a call
    with a non-null message, and it leaves the success slot empty
    ([message || undefined]). *)
Lemma setSuccess_empty_message_not_set :
  UIState.success (AppContext.uiState (AppContext.setSuccess (Some "") app0))
  = None.
Proof. reflexivity. Qed.

(** C2 (amended): [setError] with a non-null error stores that error and
    empties the success slot; [setSuccess] with a non-null, non-empty message
    stores that message and empties the error slot; after any non-empty
    sequence of [setError]/[setSuccess] calls from any state, and after any
    sequence of [uiState] mutations from the initial state, the error and
    the success slot are never both occupied. *)
Theorem uiState_messages_exclusive
    (s : AppContext.t) (e : AppError.t) (m : string)
    (ms : list AppContext.UiMutation) :
  m ≠ "" →
  ms ≠ [] →
  forallb AppContext.writes_message ms = true →
  (UIState.error (AppContext.uiState (AppContext.setError (Some e) s)) = Some e
   ∧ UIState.success (AppContext.uiState (AppContext.setError (Some e) s)) = None)
  ∧ (UIState.success (AppContext.uiState (AppContext.setSuccess (Some m) s)) = Some m
     ∧ UIState.error (AppContext.uiState (AppContext.setSuccess (Some m) s)) = None)
  ∧ AppContext.both_set (AppContext.run ms s) = false
  ∧ (∀ w ms', AppContext.both_set (AppContext.run ms' (AppContext.init w)) = false).
Proof.
  intros Hm Hne Hw. repeat split.
  - simpl. by rewrite truthy_nonempty.
  - by apply both_set_run_writes.
  - intros w ms'. by apply both_set_run.
Qed.

Lemma uiState_messages_exclusive_witness :
  (UIState.error (AppContext.uiState (AppContext.setError (Some error0) app0))
   = Some error0
   ∧ UIState.success (AppContext.uiState (AppContext.setError (Some error0) app0))
     = None)
  ∧ (UIState.success
       (AppContext.uiState (AppContext.setSuccess (Some "Project saved") app0))
     = Some "Project saved"
     ∧ UIState.error
         (AppContext.uiState (AppContext.setSuccess (Some "Project saved") app0))
       = None)
  ∧ AppContext.both_set
      (AppContext.run
         [AppContext.SetSuccess (Some "ok"); AppContext.SetError (Some error0)]
         app0) = false
  ∧ (∀ w ms', AppContext.both_set (AppContext.run ms' (AppContext.init w)) = false).
Proof.
  apply (uiState_messages_exclusive app0 error0 "Project saved"
           [AppContext.SetSuccess (Some "ok"); AppContext.SetError (Some error0)]).
  - discriminate.
  - discriminate.
  - reflexivity.
Defined.

(** ** [updateProject] and [removeProject] *)

Lemma updateProject_projects p s :
  AppContext.projects (AppContext.updateProject p s)
  = (λ q, if decide (Project.id q = Project.id p) then p else q)
      <$> AppContext.projects s.
Proof. unfold AppContext.updateProject. by case_match. Qed.

Lemma updateProject_current p s :
  AppContext.currentProject (AppContext.updateProject p s)
  = (λ c, if decide (Project.id c = Project.id p) then p else c)
      <$> AppContext.currentProject s.
Proof.
  unfold AppContext.updateProject, AppContext.current_has_id.
  destruct (AppContext.currentProject s) as [c|] eqn:Hc; simpl; [|by rewrite Hc].
  case_bool_decide; simpl; case_decide; done.
Qed.

Lemma removeProject_projects pid s :
  AppContext.projects (AppContext.removeProject pid s)
  = filter (λ q, Project.id q ≠ pid) (AppContext.projects s).
Proof. unfold AppContext.removeProject. by case_match. Qed.

Lemma sublist_filter_max {A} (P : A → Prop) `{!∀ x, Decision (P x)}
    (r l : list A) :
  r `sublist_of` l → Forall P r → r `sublist_of` filter P l.
Proof.
  induction 1 as [|x r l _ IH|x r l _ IH]; intros HP.
  - constructor.
  - apply Forall_cons in HP as [Hx HP].
    rewrite filter_cons_True by done. constructor. by apply IH.
  - rewrite filter_cons. case_decide; [constructor|]; by apply IH.
Qed.

(** C4: [updateProject p] keeps the length of the projects list and puts [p]
    at exactly the positions whose element has [p]'s id, every other
    position keeping its element; the active project becomes [p] when its
    id is [p]'s id and is unchanged otherwise (also when there is none); no
    other cell of the container changes. *)
Theorem updateProject_replaces_by_id (p : Project.t) (s : AppContext.t) :
  length (AppContext.projects (AppContext.updateProject p s))
  = length (AppContext.projects s)
  ∧ (∀ i,
       AppContext.projects (AppContext.updateProject p s) !! i
       = (λ q, if decide (Project.id q = Project.id p) then p else q)
           <$> AppContext.projects s !! i)
  ∧ AppContext.currentProject (AppContext.updateProject p s)
    = match AppContext.currentProject s with
      | Some c => if decide (Project.id c = Project.id p) then Some p else Some c
      | None => None
      end
  ∧ AppContext.uiState (AppContext.updateProject p s) = AppContext.uiState s
  ∧ AppContext.cacheEnabled (AppContext.updateProject p s) = AppContext.cacheEnabled s
  ∧ AppContext.theme (AppContext.updateProject p s) = AppContext.theme s
  ∧ AppContext.uploadProgress (AppContext.updateProject p s)
    = AppContext.uploadProgress s.
Proof.
  split_and!.
  - by rewrite updateProject_projects, length_fmap.
  - intros i. by rewrite updateProject_projects, list_lookup_fmap.
  - rewrite updateProject_current.
    destruct (AppContext.currentProject s); simpl; [by case_decide|done].
  - unfold AppContext.updateProject. by case_match.
  - unfold AppContext.updateProject. by case_match.
  - unfold AppContext.updateProject. by case_match.
  - unfold AppContext.updateProject. by case_match.
Qed.

Example updateProject_app0 :
  AppContext.updateProject project_a' app0
  = AppContext.mk (UIState.mk false (Some error0) (Some "Saved"))
      (Some project_a') [project_a'; project_b; project_a'] true "dark" 0.
Proof. reflexivity. Qed.

(** C5: [removeProject id] leaves the projects whose id is not [id], in
    their order: the new list is a sublist of the old one, holds no project
    with that id, and every sublist of the old list without that id is a
    sublist of it; the active project becomes null when its id is [id] and
    is unchanged otherwise; no other cell of the container changes. *)
Theorem removeProject_removes_by_id (pid : string) (s : AppContext.t) :
  AppContext.projects (AppContext.removeProject pid s)
    `sublist_of` AppContext.projects s
  ∧ (∀ q, q ∈ AppContext.projects (AppContext.removeProject pid s)
          ↔ q ∈ AppContext.projects s ∧ Project.id q ≠ pid)
  ∧ (∀ r, r `sublist_of` AppContext.projects s →
          Forall (λ q, Project.id q ≠ pid) r →
          r `sublist_of` AppContext.projects (AppContext.removeProject pid s))
  ∧ AppContext.currentProject (AppContext.removeProject pid s)
    = match AppContext.currentProject s with
      | Some c => if decide (Project.id c = pid) then None else Some c
      | None => None
      end
  ∧ AppContext.uiState (AppContext.removeProject pid s) = AppContext.uiState s
  ∧ AppContext.cacheEnabled (AppContext.removeProject pid s) = AppContext.cacheEnabled s
  ∧ AppContext.theme (AppContext.removeProject pid s) = AppContext.theme s
  ∧ AppContext.uploadProgress (AppContext.removeProject pid s)
    = AppContext.uploadProgress s.
Proof.
  split_and!.
  - rewrite removeProject_projects. apply sublist_filter.
  - intros q. rewrite removeProject_projects, list_elem_of_filter.
    split; intros [? ?]; by split.
  - intros r Hr HP. rewrite removeProject_projects. by apply sublist_filter_max.
  - unfold AppContext.removeProject, AppContext.current_has_id.
    destruct (AppContext.currentProject s) as [c|] eqn:Hc; simpl; [|by rewrite Hc].
    case_bool_decide; simpl; case_decide; done.
  - unfold AppContext.removeProject. by case_match.
  - unfold AppContext.removeProject. by case_match.
  - unfold AppContext.removeProject. by case_match.
  - unfold AppContext.removeProject. by case_match.
Qed.

Example removeProject_app0 :
  AppContext.removeProject "a" app0
  = AppContext.mk (UIState.mk false (Some error0) (Some "Saved"))
      None [project_b] true "dark" 0.
Proof. reflexivity. Qed.

Example removeProject_other_app0 :
  AppContext.removeProject "b" app0
  = AppContext.mk (UIState.mk false (Some error0) (Some "Saved"))
      (Some project_a) [project_a; project_a] true "dark" 0.
Proof. reflexivity. Qed.

(** C10: [updateProject p] on a list that holds no project with [p]'s id
    leaves the list as it is ([p] is not inserted), and the whole container
    as it is when the active project is absent or has another id. *)
Theorem updateProject_unknown_id (p : Project.t) (s : AppContext.t) :
  (∀ q, q ∈ AppContext.projects s → Project.id q ≠ Project.id p) →
  AppContext.projects (AppContext.updateProject p s) = AppContext.projects s
  ∧ ((∀ c, AppContext.currentProject s = Some c → Project.id c ≠ Project.id p) →
     AppContext.updateProject p s = s).
Proof.
  intros Hl.
  assert (AppContext.projects (AppContext.updateProject p s) = AppContext.projects s)
    as Hp.
  { rewrite updateProject_projects. rewrite <- (list_fmap_id (AppContext.projects s)) at 2.
    apply list_fmap_ext. intros i q Hq. case_decide; [|done].
    exfalso. eapply Hl; [|done]. by eapply list_elem_of_lookup_2. }
  split; [done|]. intros Hc.
  pose proof (updateProject_current p s) as Hcur.
  rewrite updateProject_projects in Hp.
  destruct s as [ui cur l ce th up]. simpl in *.
  unfold AppContext.updateProject, AppContext.current_has_id,
    AppContext.updProjects, AppContext.setCurrentProject; simpl.
  rewrite Hp. destruct cur as [c|]; [|done].
  rewrite bool_decide_eq_false_2; [done|]. by apply Hc.
Qed.

Lemma updateProject_unknown_id_witness :
  AppContext.projects (AppContext.updateProject project_c app0)
  = AppContext.projects app0
  ∧ AppContext.updateProject project_c app0 = app0.
Proof.
  assert (∀ q, q ∈ AppContext.projects app0 → Project.id q ≠ Project.id project_c)
    as Hl.
  { intros q Hq. vm_compute in Hq.
    repeat (apply elem_of_cons in Hq as [->|Hq]; [discriminate|]).
    by apply elem_of_nil in Hq. }
  destruct (updateProject_unknown_id project_c app0 Hl) as [Hp Hs].
  split; [exact Hp|]. apply Hs. intros c [= <-]. discriminate.
Defined.

(** ** [clearCache] *)

Lemma clearCache_fold_frame ks w :
  Browser.location_href (foldl AppContext.clearCache_step w ks)
  = Browser.location_href w
  ∧ Browser.network (foldl AppContext.clearCache_step w ks) = Browser.network w.
Proof.
  revert w. induction ks as [|a ks IH]; intros w; [done|].
  simpl. destruct (IH (AppContext.clearCache_step w a)) as [-> ->].
  unfold AppContext.clearCache_step. by case_match.
Qed.

Lemma clearCache_fold_none ks w k :
  Browser.localStorage w !! k = None →
  Browser.localStorage (foldl AppContext.clearCache_step w ks) !! k = None.
Proof.
  revert w. induction ks as [|a ks IH]; intros w Hk; [done|].
  simpl. apply IH. unfold AppContext.clearCache_step.
  case_match; [|done]. simpl.
  destruct (decide (a = k)) as [->|Hne].
  - apply lookup_delete_eq.
  - by rewrite lookup_delete_ne.
Qed.

Lemma clearCache_fold_other ks w k :
  Js.startsWith k "cache_" = false →
  Browser.localStorage (foldl AppContext.clearCache_step w ks) !! k
  = Browser.localStorage w !! k.
Proof.
  intros Hk. revert w. induction ks as [|a ks IH]; intros w; [done|].
  simpl. rewrite IH. unfold AppContext.clearCache_step.
  case_match eqn:Ha; [|done]. simpl.
  rewrite lookup_delete_ne; [done|]. intros ->. congruence.
Qed.

Lemma clearCache_fold_cache ks w k :
  Js.startsWith k "cache_" = true →
  k ∈ ks →
  Browser.localStorage (foldl AppContext.clearCache_step w ks) !! k = None.
Proof.
  intros Hk. revert w. induction ks as [|a ks IH]; intros w Hin.
  - by apply elem_of_nil in Hin.
  - simpl. destruct (decide (k = a)) as [->|Hne].
    + apply clearCache_fold_none. unfold AppContext.clearCache_step.
      rewrite Hk. simpl. apply lookup_delete_eq.
    + apply IH. apply elem_of_cons in Hin as [?|?]; done.
Qed.

Lemma elem_of_keys k w :
  k ∈ Browser.keys w ↔ is_Some (Browser.localStorage w !! k).
Proof.
  unfold Browser.keys. rewrite list_elem_of_fmap. split.
  - intros [[k' v] [-> Hkv]]. apply elem_of_map_to_list in Hkv. by exists v.
  - intros [v Hv]. exists (k, v). split; [done|]. by apply elem_of_map_to_list.
Qed.

(** C9: in a browser, [clearCache] removes from local storage exactly the
    keys that start with ["cache_"]: after it, such a key is absent and
    every other key holds what it held, among them the credential token and
    the theme preference; nothing else of the browser changes. *)
Theorem clearCache_removes_cache_keys (w : Browser.t) :
  ∃ w', AppContext.clearCache (Some w) = Some w'
    ∧ (∀ k, Browser.getItem k w'
            = if Js.startsWith k "cache_" then None else Browser.getItem k w)
    ∧ Browser.getItem "auth_token" w' = Browser.getItem "auth_token" w
    ∧ Browser.getItem "theme" w' = Browser.getItem "theme" w
    ∧ Browser.location_href w' = Browser.location_href w
    ∧ Browser.network w' = Browser.network w.
Proof.
  eexists. split; [reflexivity|].
  assert (∀ k, Browser.getItem k (foldl AppContext.clearCache_step w (Browser.keys w))
               = if Js.startsWith k "cache_" then None else Browser.getItem k w)
    as Hall.
  { intros k. unfold Browser.getItem.
    destruct (Js.startsWith k "cache_") eqn:Hk.
    - destruct (Browser.localStorage w !! k) as [v|] eqn:Hv.
      + apply clearCache_fold_cache; [done|]. apply elem_of_keys. by exists v.
      + by apply clearCache_fold_none.
    - by apply clearCache_fold_other. }
  split_and!.
  - exact Hall.
  - apply (Hall "auth_token").
  - apply (Hall "theme").
  - apply clearCache_fold_frame.
  - apply clearCache_fold_frame.
Qed.

Example clearCache_browser0 :
  Browser.localStorage <$> AppContext.clearCache (Some browser0)
  = Some (<["auth_token" := "t0k3n"]> (<["theme" := "dark"]> ∅)).
Proof. vm_compute. reflexivity. Qed.

(** ** The resource client: envelopes, 401 responses, logout *)

(** C1, as stated, fails: [getProjects] hands back a paginated envelope with
    [success = false] instead of failing, [logout] returns normally on such
    an envelope, and a present but empty [message] is replaced by the
    default. *)
Lemma failed_envelope_not_always_thrown :
  Call.envelope (Call.getProjects 1 10) failed_page = Some (false, None)
  ∧ (Call.run (Call.getProjects 1 10) (Resolved failed_page) browser0).2
    = Return failed_page
  ∧ (Call.run Call.logout (Resolved (failed_envelope (Some "denied"))) browser0).2
    = Return tt
  ∧ (Call.run (Call.login credentials0) (Resolved (failed_envelope (Some "")))
       browser0).2
    = Throw (JsError.Error "Login failed").
Proof. repeat split. Qed.

Lemma data_or_throw_failed {T : Type} (d : string) (w : Browser.t)
    (r : ApiResponse.t T) :
  ApiResponse.success r = false →
  Api.data_or_throw d (w, Return r)
  = (w, Throw (JsError.Error (Js.or_default (ApiResponse.message r) d))).
Proof. intros Hr. unfold Api.data_or_throw. by rewrite Hr. Qed.

Lemma success_or_throw_failed {T : Type} (d : string) (w : Browser.t)
    (r : ApiResponse.t T) :
  ApiResponse.success r = false →
  Api.success_or_throw d (w, Return r)
  = (w, Throw (JsError.Error (Js.or_default (ApiResponse.message r) d))).
Proof. intros Hr. unfold Api.success_or_throw. by rewrite Hr. Qed.

(** C1 (amended): every operation of the client except [getProjects],
    [logout] and [healthCheck], when its request resolves with an envelope
    whose [success] is false, throws an [Error] whose message is the
    envelope's [message] when that is present and not empty, and the
    operation's own default message otherwise. *)
Theorem failed_envelope_throws (c : Call.t) (d : string) (b : Call.Body c)
    (m : option string) (w : Browser.t) :
  Call.default_message c = Some d →
  Call.envelope c b = Some (false, m) →
  (Call.run c (Resolved b) w).2
  = Throw (JsError.Error
             (match m with
              | Some x => if decide (x = "") then d else x
              | None => d
              end)).
Proof.
  intros Hd Hb.
  assert (Js.or_default m d
          = match m with
            | Some x => if decide (x = "") then d else x
            | None => d
            end) as <-.
  { destruct m as [[|a x]|]; done. }
  destruct c; simpl in Hd, Hb; try discriminate;
    injection Hd as <-; injection Hb as Hs <-; simpl;
    unfold Api.login, Api.register, Api.getProfile, Api.getProject,
      Api.createProject, Api.updateProject, Api.deleteProject,
      Api.convertScript, Api.getStoryboard, Api.updateStoryboard,
      Api.uploadFile, Api.exportProject, Api.clearCache, Api.request;
    rewrite ?data_or_throw_failed, ?success_or_throw_failed by done; done.
Qed.

Lemma failed_envelope_throws_witness :
  (Call.run (Call.getProject "a") (Resolved (failed_envelope (Some "No such project")))
     browser0).2
  = Throw (JsError.Error "No such project").
Proof.
  apply (failed_envelope_throws (Call.getProject "a") "Failed to get project"
           (failed_envelope (Some "No such project")) (Some "No such project")
           browser0); reflexivity.
Defined.

(** The operations with a default message are all but three. *)
Lemma default_message_defined (c : Call.t) :
  Call.default_message c = None ↔
  c = Call.logout ∨ (∃ page limit, c = Call.getProjects page limit)
  ∨ c = Call.healthCheck.
Proof.
  split.
  - destruct c; simpl; try discriminate; eauto.
  - intros [->|[(page & limit & ->)| ->]]; done.
Qed.

(** The three others do not look at the envelope: [getProjects] and
    [healthCheck] return the body they receive, [logout] returns. *)
Lemma resolved_body_not_inspected :
  (∀ page limit b w,
     (Call.run (Call.getProjects page limit) (Resolved b) w).2 = Return b)
  ∧ (∀ b w, (Call.run Call.healthCheck (Resolved b) w).2 = Return b)
  ∧ (∀ b w, (Call.run Call.logout (Resolved b) w).2 = Return tt).
Proof. done. Qed.

Example deleteProject_failed_without_message :
  (Api.deleteProject "a" (Resolved (failed_envelope None)) browser0).2
  = Throw (JsError.Error "Failed to delete project").
Proof. reflexivity. Qed.

Lemma response_interceptor_401 e w :
  JsError.response_status e = Some 401 →
  Api.response_interceptor e w = Browser.navigate "/login" (Api.clearToken w).
Proof. intros He. unfold Api.response_interceptor. by rewrite decide_True. Qed.

Lemma restore_without_token profile w :
  Api.getToken w = None →
  AuthContext.restore profile w = (w, AuthContext.mk None false).
Proof. intros Hw. unfold AuthContext.restore. by rewrite Hw. Qed.

(** C3: whichever operation of the client is called, when its request is
    rejected with a response of status 401 the credential token is removed
    from local storage (every other key keeps its value), the browser is
    sent to ["/login"], and the error is thrown on to the caller; the
    session store that starts on that page load finds no token and is
    unauthenticated, whatever a profile fetch would answer. *)
Theorem unauthorized_ends_session (c : Call.t) (e : JsError.t) (w : Browser.t)
    (profile : Outcome (ApiResponse.t User.t)) :
  JsError.response_status e = Some 401 →
  Api.getToken (Call.run c (Rejected e) w).1 = None
  ∧ (∀ k, k ≠ "auth_token" →
          Browser.getItem k (Call.run c (Rejected e) w).1 = Browser.getItem k w)
  ∧ Browser.location_href (Call.run c (Rejected e) w).1 = "/login"
  ∧ (Call.run c (Rejected e) w).2 = Throw e
  ∧ AuthContext.isAuthenticated
      (AuthContext.restore profile (Call.run c (Rejected e) w).1).2 = false.
Proof.
  intros He.
  assert (Api.getToken (Call.run c (Rejected e) w).1 = None) as Htok.
  { destruct c; unfold_api; rewrite response_interceptor_401 by done;
      apply lookup_delete_eq. }
  split_and!.
  - exact Htok.
  - intros k Hk.
    destruct c; unfold_api; rewrite response_interceptor_401 by done;
      unfold Browser.getItem; simpl; by rewrite ?lookup_delete_ne.
  - destruct c; unfold_api; by rewrite response_interceptor_401.
  - destruct c; unfold_api; done.
  - by rewrite restore_without_token.
Qed.

Lemma unauthorized_ends_session_witness :
  Api.getToken (Call.run (Call.getProject "a") (Rejected unauthorized) browser0).1
  = None
  ∧ (∀ k, k ≠ "auth_token" →
          Browser.getItem k
            (Call.run (Call.getProject "a") (Rejected unauthorized) browser0).1
          = Browser.getItem k browser0)
  ∧ Browser.location_href
      (Call.run (Call.getProject "a") (Rejected unauthorized) browser0).1
    = "/login"
  ∧ (Call.run (Call.getProject "a") (Rejected unauthorized) browser0).2
    = Throw unauthorized
  ∧ AuthContext.isAuthenticated
      (AuthContext.restore (Rejected unauthorized)
         (Call.run (Call.getProject "a") (Rejected unauthorized) browser0).1).2
    = false.
Proof.
  apply (unauthorized_ends_session (Call.getProject "a") unauthorized browser0
           (Rejected unauthorized)).
  reflexivity.
Defined.

(** A rejection with another status leaves the token and the location. *)
Example forbidden_keeps_session :
  let w := (Api.getProject "a" (Rejected (JsError.mk "Forbidden" (Some 403)))
              browser0).1 in
  Api.getToken w = Some "t0k3n" ∧ Browser.location_href w = "/dashboard".
Proof. vm_compute. done. Qed.

(** C7: [logout] sends one POST to ["/auth/logout"], and whether that
    request resolves or is rejected the credential token is absent from
    local storage afterwards, every other key keeping its value; a
    rejection is thrown on to the caller after the token is cleared. *)
Theorem logout_always_clears_token (o : Outcome (ApiResponse.t unit))
    (w : Browser.t) :
  Browser.network (Api.logout o w).1
  = Browser.network w ++ [Api.request_interceptor POST "/auth/logout" w]
  ∧ Api.getToken (Api.logout o w).1 = None
  ∧ (∀ k, k ≠ "auth_token" →
          Browser.getItem k (Api.logout o w).1 = Browser.getItem k w)
  ∧ (Api.logout o w).2
    = match o with
      | Resolved _ => Return tt
      | Rejected e => Throw e
      end.
Proof.
  destruct o as [b|e]; unfold_api.
  - split_and!; try done.
    + apply lookup_delete_eq.
    + intros k Hk. unfold Browser.getItem. simpl. by rewrite lookup_delete_ne.
  - unfold Api.response_interceptor. case_decide; simpl.
    + split_and!; try done.
      * apply lookup_delete_eq.
      * intros k Hk. unfold Browser.getItem. simpl. by rewrite !lookup_delete_ne.
    + split_and!; try done.
      * apply lookup_delete_eq.
      * intros k Hk. unfold Browser.getItem. simpl. by rewrite lookup_delete_ne.
Qed.

Example logout_network_error :
  let r := Api.logout (Rejected (JsError.mk "Network Error" None)) browser0 in
  Api.getToken r.1 = None
  ∧ Browser.getItem "theme" r.1 = Some "dark"
  ∧ Browser.location_href r.1 = "/dashboard"
  ∧ r.2 = Throw (JsError.mk "Network Error" None).
Proof. vm_compute. done. Qed.

(** ** The create-project flow *)

Lemma errors_of_short_name form :
  String.length (CreateProjectRequest.name form) < 3 →
  CreateProjectErrors.name (DashboardPage.errors_of form)
  = Some (if Js.truthy (Js.trim (CreateProjectRequest.name form))
          then "Project name must be at least 3 characters"
          else "Project name is required").
Proof.
  intros Hlen. unfold DashboardPage.errors_of. simpl.
  destruct (Js.truthy (Js.trim (CreateProjectRequest.name form))); simpl; [|done].
  by rewrite (proj2 (Nat.ltb_lt _ _) Hlen).
Qed.

Lemma no_errors_name_set e m :
  CreateProjectErrors.name e = Some m → DashboardPage.no_errors e = false.
Proof. intros He. unfold DashboardPage.no_errors. by rewrite He. Qed.

(** C8: when the name in the create form has fewer than 3 characters,
    [handleCreateProject] only records the validation errors: the name
    field gets its error message, no request is sent whatever the remote
    would have answered, and the browser, the application state and the
    form are as before. *)
Theorem short_name_rejected_locally (o : Outcome (ApiResponse.t Project.t))
    (now : string) (st : DashboardPage.t) :
  String.length (CreateProjectRequest.name (DashboardPage.createForm st)) < 3 →
  CreateProjectErrors.name
    (DashboardPage.createErrors (DashboardPage.handleCreateProject o now st))
  = Some (if Js.truthy
               (Js.trim (CreateProjectRequest.name (DashboardPage.createForm st)))
          then "Project name must be at least 3 characters"
          else "Project name is required")
  ∧ Browser.network
      (DashboardPage.browser (DashboardPage.handleCreateProject o now st))
    = Browser.network (DashboardPage.browser st)
  ∧ DashboardPage.handleCreateProject o now st
    = DashboardPage.setCreateErrors
        (DashboardPage.errors_of (DashboardPage.createForm st)) st.
Proof.
  intros Hlen.
  pose proof (errors_of_short_name _ Hlen) as Hname.
  assert (DashboardPage.handleCreateProject o now st
          = DashboardPage.setCreateErrors
              (DashboardPage.errors_of (DashboardPage.createForm st)) st) as ->.
  { unfold DashboardPage.handleCreateProject, DashboardPage.validateCreateForm.
    by rewrite (no_errors_name_set _ _ Hname). }
  done.
Qed.

Lemma short_name_rejected_locally_witness :
  CreateProjectErrors.name
    (DashboardPage.createErrors
       (DashboardPage.handleCreateProject (Resolved created) "2024-03-01" dashboard0))
  = Some "Project name must be at least 3 characters"
  ∧ Browser.network
      (DashboardPage.browser
         (DashboardPage.handleCreateProject (Resolved created) "2024-03-01" dashboard0))
    = []
  ∧ DashboardPage.handleCreateProject (Resolved created) "2024-03-01" dashboard0
    = DashboardPage.setCreateErrors
        (DashboardPage.errors_of (DashboardPage.createForm dashboard0)) dashboard0.
Proof.
  apply (short_name_rejected_locally (Resolved created) "2024-03-01" dashboard0).
  simpl. lia.
Defined.

(** A name of three characters passes the check and the request is sent. *)
Example name_of_three_is_sent :
  Request.url <$>
    Browser.network
      (DashboardPage.browser
         (DashboardPage.handleCreateProject (Resolved created) "2024-03-01"
            (DashboardPage.setCreateForm
               (CreateProjectRequest.mk "abc" (Some "") (Some "")) dashboard0)))
  = ["/projects"].
Proof. vm_compute. reflexivity. Qed.

(** A blank name of any length is rejected as missing. *)
Example blank_name_is_required :
  CreateProjectErrors.name
    (DashboardPage.createErrors
       (DashboardPage.handleCreateProject (Resolved created) "2024-03-01"
          (DashboardPage.setCreateForm
             (CreateProjectRequest.mk "     " (Some "") (Some "")) dashboard0)))
  = Some "Project name is required".
Proof. vm_compute. reflexivity. Qed.

(** ** The convert flow *)

Lemma convertScript_network req o w :
  Browser.network (Api.convertScript req o w).1
  = Browser.network w
    ++ [Api.request_interceptor POST
          ("/projects/" +:+ ConversionRequest.projectId req +:+ "/convert") w].
Proof.
  unfold_api. destruct o as [b|e]; simpl.
  - by destruct (ApiResponse.success b), (ApiResponse.data b).
  - unfold Api.response_interceptor. by case_decide.
Qed.

Lemma trim_truthy (s : string) : Js.trim s ≠ "" → Js.truthy (Js.trim s) = true.
Proof. apply truthy_nonempty. Qed.

(** C6: with a project open and a script that is not blank,
    [handleConvertScript] sends the conversion request; when the call
    returns, the displayed scene list is the returned list, whatever was
    displayed before; when the call throws, the displayed scene list is the
    one displayed before and the error slot holds a [CONVERT_ERROR] with the
    thrown message; either way the page is no longer converting. *)
Theorem convert_replaces_or_preserves
    (o : Outcome (ApiResponse.t ConversionResponse.t)) (now : string)
    (st : EditorPage.t) (p : Project.t) :
  AppContext.currentProject (EditorPage.app st) = Some p →
  Js.trim (EditorPage.scriptContent st) ≠ "" →
  match (Api.convertScript (EditorPage.conversionRequest p st) o
           (EditorPage.browser st)).2 with
  | Return response =>
      EditorPage.storyboard (EditorPage.handleConvertScript o now st)
      = ConversionResponse.storyboard response
      ∧ UIState.error
          (AppContext.uiState
             (EditorPage.app (EditorPage.handleConvertScript o now st)))
        = None
  | Throw error =>
      EditorPage.storyboard (EditorPage.handleConvertScript o now st)
      = EditorPage.storyboard st
      ∧ UIState.error
          (AppContext.uiState
             (EditorPage.app (EditorPage.handleConvertScript o now st)))
        = Some (AppError.mk "CONVERT_ERROR" (JsError.message error) None now)
  end
  ∧ EditorPage.isConverting (EditorPage.handleConvertScript o now st) = false
  ∧ Browser.network
      (EditorPage.browser (EditorPage.handleConvertScript o now st))
    = Browser.network (EditorPage.browser st)
      ++ [Api.request_interceptor POST
            ("/projects/" +:+ Project.id p +:+ "/convert") (EditorPage.browser st)].
Proof.
  intros Hp Hs. unfold EditorPage.handleConvertScript.
  rewrite Hp, (trim_truthy _ Hs). simpl.
  pose proof (convertScript_network (EditorPage.conversionRequest p st) o
                (EditorPage.browser st)) as Hnet.
  destruct (Api.convertScript (EditorPage.conversionRequest p st) o
              (EditorPage.browser st)) as [w [response|error]]; simpl in *;
    by split_and!.
Qed.

Lemma convert_replaces_or_preserves_witness :
  (EditorPage.storyboard
     (EditorPage.handleConvertScript (Rejected unauthorized) "2024-03-01" editor0)
   = [scene1]
   ∧ UIState.error
       (AppContext.uiState
          (EditorPage.app
             (EditorPage.handleConvertScript (Rejected unauthorized) "2024-03-01"
                editor0)))
     = Some (AppError.mk "CONVERT_ERROR" "Request failed with status code 401"
               None "2024-03-01"))
  ∧ EditorPage.isConverting
      (EditorPage.handleConvertScript (Rejected unauthorized) "2024-03-01" editor0)
    = false
  ∧ Browser.network
      (EditorPage.browser
         (EditorPage.handleConvertScript (Rejected unauthorized) "2024-03-01"
            editor0))
    = [Request.mk POST "/projects/a/convert" (Some "Bearer t0k3n")].
Proof.
  apply (convert_replaces_or_preserves (Rejected unauthorized) "2024-03-01"
           editor0 project_a).
  - reflexivity.
  - discriminate.
Defined.

Example convert_success_replaces :
  EditorPage.storyboard
    (EditorPage.handleConvertScript (Resolved converted) "2024-03-01" editor0)
  = [scene2; scene1]
  ∧ UIState.success
      (AppContext.uiState
         (EditorPage.app
            (EditorPage.handleConvertScript (Resolved converted) "2024-03-01"
               editor0)))
    = Some "Generated 2 scenes in 120ms".
Proof. vm_compute. done. Qed.

Example convert_failed_envelope_preserves :
  EditorPage.storyboard
    (EditorPage.handleConvertScript (Resolved (failed_envelope (Some "Quota exceeded")))
       "2024-03-01" editor0)
  = [scene1]
  ∧ (AppError.message <$>
       UIState.error
         (AppContext.uiState
            (EditorPage.app
               (EditorPage.handleConvertScript
                  (Resolved (failed_envelope (Some "Quota exceeded")))
                  "2024-03-01" editor0))))
    = Some "Quota exceeded".
Proof. vm_compute. done. Qed.

(** Without an open project, or with a blank script, nothing is sent and
    the displayed scene list stays. *)
Example convert_blank_script :
  let st := EditorPage.handleConvertScript (Resolved converted) "2024-03-01"
              (EditorPage.mk browser0 app0 "  " [scene1] false false None
                 (ConversionOptions.mk None None None)) in
  EditorPage.storyboard st = [scene1]
  ∧ Browser.network (EditorPage.browser st) = []
  ∧ (AppError.message <$> UIState.error (AppContext.uiState (EditorPage.app st)))
    = Some "Please enter a script before converting".
Proof. vm_compute. done. Qed.

(** ** The resource client: requests, storage and errors *)

Lemma request_interceptor_eq m url w :
  Api.request_interceptor m url w
  = Request.mk m url
      (match Api.getToken w with
       | Some t => if decide (t = "") then None else Some ("Bearer " +:+ t)
       | None => None
       end).
Proof.
  unfold Api.request_interceptor. f_equal.
  destruct (Api.getToken w) as [[|a t]|]; done.
Qed.

Lemma response_interceptor_network e w :
  Browser.network (Api.response_interceptor e w) = Browser.network w.
Proof. unfold Api.response_interceptor. by case_decide. Qed.

Lemma run_network c o w :
  Browser.network (Call.run c o w).1
  = Browser.network w
    ++ [Api.request_interceptor (Call.endpoint c).1 (Call.endpoint c).2 w].
Proof.
  destruct c; simpl; unfold_api; destruct o as [b|e]; simpl;
    rewrite ?response_interceptor_network; try done;
    try (by destruct (ApiResponse.success b), (ApiResponse.data b));
    try (by destruct (ApiResponse.success b)).
Qed.

(** X1: every operation of the client sends exactly one request, to its own
    method and URL, and the request carries [Bearer <token>] exactly when a
    non-empty token is stored when the operation starts. *)
Theorem one_request_with_bearer (c : Call.t) (o : Outcome (Call.Body c))
    (w : Browser.t) :
  Browser.network (Call.run c o w).1
  = Browser.network w
    ++ [Request.mk (Call.endpoint c).1 (Call.endpoint c).2
          (match Browser.getItem "auth_token" w with
           | Some t => if decide (t = "") then None else Some ("Bearer " +:+ t)
           | None => None
           end)].
Proof. by rewrite run_network, request_interceptor_eq. Qed.

Example getProjects_request :
  Browser.network (Api.getProjects 1 10 (Resolved failed_page) browser0).1
  = [Request.mk GET "/projects?page=1&limit=10" (Some "Bearer t0k3n")].
Proof. vm_compute. reflexivity. Qed.

(** Case analysis on an operation and the way its request settles. *)
Ltac api_cases c o :=
  destruct c; simpl in *; unfold_api;
  destruct o as [?b|?e]; simpl in *;
  unfold Api.response_interceptor, Api.getToken, Api.setToken, Api.clearToken,
    Browser.getItem, Browser.setItem, Browser.removeItem, Browser.navigate in *;
  repeat case_match; simplify_eq/=.

(** X2: no operation of the client changes a key of local storage other
    than ["auth_token"], and the location changes only when the request is
    rejected with status 401, to ["/login"]. *)
Theorem storage_and_location_frame (c : Call.t) (o : Outcome (Call.Body c))
    (w : Browser.t) :
  (∀ k, k ≠ "auth_token" →
        Browser.getItem k (Call.run c o w).1 = Browser.getItem k w)
  ∧ Browser.location_href (Call.run c o w).1
    = match o with
      | Resolved _ => Browser.location_href w
      | Rejected e =>
          if decide (JsError.response_status e = Some 401)
          then "/login" else Browser.location_href w
      end.
Proof.
  split.
  - intros k Hk. api_cases c o;
      rewrite ?lookup_insert_ne, ?lookup_delete_ne by done; done.
  - api_cases c o; done.
Qed.

(** X3: the stored token after an operation.  A resolved [login] or
    [register] whose envelope has [success] and [data] stores the token of
    the data; otherwise a token that is stored afterwards was stored before
    (no operation invents one), and the stored token is untouched unless the
    operation is [logout] or the request was rejected with status 401. *)
Theorem token_lifecycle (c : Call.t) (o : Outcome (Call.Body c))
    (w : Browser.t) :
  (∀ t, Call.issued_token c o = Some t → Api.getToken (Call.run c o w).1 = Some t)
  ∧ (∀ t, Api.getToken (Call.run c o w).1 = Some t →
          Call.issued_token c o = Some t ∨ Api.getToken w = Some t)
  ∧ (Call.issued_token c o = None →
     c ≠ Call.logout →
     (∀ e, o = Rejected e → JsError.response_status e ≠ Some 401) →
     Api.getToken (Call.run c o w).1 = Api.getToken w).
Proof.
  split_and!.
  - intros t Ht. api_cases c o; by rewrite lookup_insert_eq.
  - intros t Ht. api_cases c o;
      rewrite ?lookup_insert_eq, ?lookup_delete_eq in Ht; simplify_eq/=; eauto.
  - intros Hi Hc H401. api_cases c o; try done;
      exfalso; by eapply H401.
Qed.

(** X4: after a [login] that resolves with a successful envelope whose data
    carries a non-empty token, the request of whichever operation is called
    next carries that token as its bearer credential. *)
Theorem login_then_authorized (credentials : LoginRequest.t)
    (r : ApiResponse.t AuthResponse.t) (a : AuthResponse.t)
    (c : Call.t) (o : Outcome (Call.Body c)) (w : Browser.t) :
  ApiResponse.success r = true →
  ApiResponse.data r = Some a →
  AuthResponse.token a ≠ "" →
  (Api.login credentials (Resolved r) w).2 = Return a
  ∧ Request.authorization
      <$> last (Browser.network
                  (Call.run c o (Api.login credentials (Resolved r) w).1).1)
    = Some (Some ("Bearer " +:+ AuthResponse.token a)).
Proof.
  intros Hs Hd Ht.
  assert (Api.login credentials (Resolved r) w
          = (Api.setToken (AuthResponse.token a)
               (Browser.send (Api.request_interceptor POST "/auth/login" w) w),
             Return a)) as ->.
  { unfold Api.login, Api.request, Api.data_or_throw. by rewrite Hs, Hd. }
  split; [done|].
  assert (Api.getToken
            (Api.setToken (AuthResponse.token a)
               (Browser.send (Api.request_interceptor POST "/auth/login" w) w))
          = Some (AuthResponse.token a)) as Hi by apply lookup_insert_eq.
  rewrite run_network, last_snoc. cbn [fst].
  rewrite (request_interceptor_eq _ _ (Api.setToken _ _)), Hi.
  cbv beta iota. by rewrite decide_False.
Qed.

Lemma login_then_authorized_witness :
  (Api.login credentials0 (Resolved logged_in) browser0).2 = Return auth0
  ∧ Request.authorization
      <$> last (Browser.network
                  (Call.run (Call.getProject "a") (Rejected unauthorized)
                     (Api.login credentials0 (Resolved logged_in) browser0).1).1)
    = Some (Some ("Bearer " +:+ AuthResponse.token auth0)).
Proof.
  apply (login_then_authorized credentials0 logged_in auth0 (Call.getProject "a")
           (Rejected unauthorized) browser0).
  - reflexivity.
  - reflexivity.
  - discriminate.
Defined.

(** X5: when the request resolves with an envelope whose [success] is true,
    an operation returns the data of the envelope; when the envelope has no
    data, the operations that return data throw, with the envelope's message
    if present and not empty and their default message otherwise, although
    [success] is true. *)
Theorem successful_envelope (c : Call.t) (b : Call.Body c)
    (m : option string) (w : Browser.t) :
  Call.envelope c b = Some (true, m) →
  match Call.payload c b with
  | Some d => (Call.run c (Resolved b) w).2 = Return d
  | None =>
      ∃ dm, Call.default_message c = Some dm
            ∧ (Call.run c (Resolved b) w).2
              = Throw (JsError.Error (Js.or_default m dm))
  end.
Proof.
  intros Hb.
  destruct c; simpl in *; unfold_api; simplify_eq/=;
    try done; try (by rewrite H);
    rewrite H; destruct (ApiResponse.data b); simpl; eauto.
Qed.

Lemma successful_envelope_witness :
  ∃ dm, Call.default_message (Call.getProject "a") = Some dm
        ∧ (Call.run (Call.getProject "a")
             (Resolved (ApiResponse.mk true None (Some "gone") None)) browser0).2
          = Throw (JsError.Error (Js.or_default (Some "gone") dm)).
Proof.
  apply (successful_envelope (Call.getProject "a")
           (ApiResponse.mk true None (Some "gone") None) (Some "gone") browser0).
  reflexivity.
Defined.

(** X6: an error with which the request is rejected is thrown on by every
    operation as it is, never wrapped; when its status is not 401, an
    operation other than [logout] leaves the browser as it was but for the
    request it sent. *)
Theorem rejection_rethrown (c : Call.t) (e : JsError.t) (w : Browser.t) :
  (Call.run c (Rejected e) w).2 = Throw e
  ∧ (JsError.response_status e ≠ Some 401 →
     c ≠ Call.logout →
     (Call.run c (Rejected e) w).1
     = Browser.send
         (Api.request_interceptor (Call.endpoint c).1 (Call.endpoint c).2 w) w).
Proof.
  split.
  - destruct c; simpl; unfold_api; done.
  - intros He Hc. destruct c; simpl; unfold_api; try done;
      unfold Api.response_interceptor; by rewrite decide_False.
Qed.

(** ** The state container: identifiers, composition, theme *)





Lemma app_eq (s1 s2 : AppContext.t) :
  AppContext.uiState s1 = AppContext.uiState s2 →
  AppContext.currentProject s1 = AppContext.currentProject s2 →
  AppContext.projects s1 = AppContext.projects s2 →
  AppContext.cacheEnabled s1 = AppContext.cacheEnabled s2 →
  AppContext.theme s1 = AppContext.theme s2 →
  AppContext.uploadProgress s1 = AppContext.uploadProgress s2 →
  s1 = s2.
Proof. destruct s1, s2; simpl; congruence. Qed.

Lemma removeProject_current pid s :
  AppContext.currentProject (AppContext.removeProject pid s)
  = match AppContext.currentProject s with
    | Some c => if decide (Project.id c = pid) then None else Some c
    | None => None
    end.
Proof.
  unfold AppContext.removeProject, AppContext.current_has_id.
  destruct (AppContext.currentProject s) as [c|] eqn:Hc; simpl; [|by rewrite Hc].
  case_bool_decide; simpl; case_decide; done.
Qed.

Lemma updateProject_frame p s :
  AppContext.uiState (AppContext.updateProject p s) = AppContext.uiState s
  ∧ AppContext.cacheEnabled (AppContext.updateProject p s) = AppContext.cacheEnabled s
  ∧ AppContext.theme (AppContext.updateProject p s) = AppContext.theme s
  ∧ AppContext.uploadProgress (AppContext.updateProject p s)
    = AppContext.uploadProgress s.
Proof. unfold AppContext.updateProject. by case_match. Qed.

Lemma removeProject_frame pid s :
  AppContext.uiState (AppContext.removeProject pid s) = AppContext.uiState s
  ∧ AppContext.cacheEnabled (AppContext.removeProject pid s) = AppContext.cacheEnabled s
  ∧ AppContext.theme (AppContext.removeProject pid s) = AppContext.theme s
  ∧ AppContext.uploadProgress (AppContext.removeProject pid s)
    = AppContext.uploadProgress s.
Proof. unfold AppContext.removeProject. by case_match. Qed.

Ltac app_ext :=
  apply app_eq;
  repeat first
    [ rewrite (proj1 (updateProject_frame _ _))
    | rewrite (proj1 (proj2 (updateProject_frame _ _)))
    | rewrite (proj1 (proj2 (proj2 (updateProject_frame _ _))))
    | rewrite (proj2 (proj2 (proj2 (updateProject_frame _ _))))
    | rewrite (proj1 (removeProject_frame _ _))
    | rewrite (proj1 (proj2 (removeProject_frame _ _)))
    | rewrite (proj1 (proj2 (proj2 (removeProject_frame _ _))))
    | rewrite (proj2 (proj2 (proj2 (removeProject_frame _ _)))) ];
  try done.

(** X8: how the two project mutators compose, on the whole container:
    removing a project after updating it is removing it; updating with the
    same project twice is updating once; two removals commute, and a
    repeated removal changes nothing more. *)
Theorem project_mutators_compose (p : Project.t) (a b : string)
    (s : AppContext.t) :
  AppContext.removeProject (Project.id p) (AppContext.updateProject p s)
  = AppContext.removeProject (Project.id p) s
  ∧ AppContext.updateProject p (AppContext.updateProject p s)
    = AppContext.updateProject p s
  ∧ AppContext.removeProject a (AppContext.removeProject b s)
    = AppContext.removeProject b (AppContext.removeProject a s)
  ∧ AppContext.removeProject a (AppContext.removeProject a s)
    = AppContext.removeProject a s.
Proof.
  split_and!; app_ext.
  - rewrite !removeProject_current, updateProject_current.
    destruct (AppContext.currentProject s) as [c|]; simpl; [|done].
    repeat case_decide; done.
  - rewrite !removeProject_projects, updateProject_projects.
    induction (AppContext.projects s) as [|q l IH]; [done|].
    rewrite fmap_cons, !filter_cons.
    destruct (decide (Project.id q = Project.id p)) as [Hq|Hq].
    + rewrite decide_False by (by intros ?). rewrite decide_False by (by intros ?).
      exact IH.
    + rewrite !decide_True by done. by rewrite IH.
  - rewrite !updateProject_current.
    destruct (AppContext.currentProject s) as [c|]; simpl; [|done].
    repeat case_decide; done.
  - rewrite !updateProject_projects, <- list_fmap_compose.
    apply list_fmap_ext. intros i q _. simpl. repeat case_decide; done.
  - rewrite !removeProject_current.
    destruct (AppContext.currentProject s) as [c|]; simpl; [|done].
    repeat case_decide; done.
  - rewrite !removeProject_projects, !list_filter_filter.
    apply list_filter_iff. intros q. tauto.
  - rewrite !removeProject_current.
    destruct (AppContext.currentProject s) as [c|]; simpl; [|done].
    repeat case_decide; done.
  - rewrite !removeProject_projects, !list_filter_filter.
    apply list_filter_iff. intros q. tauto.
Qed.

Lemma contains_apply_theme_class th d :
  Document.contains "dark" (AppContext.apply_theme_class th d)
  = bool_decide (th = "dark").
Proof.
  unfold AppContext.apply_theme_class, Document.contains.
  destruct (String.eqb_spec th "dark") as [->|Hne]; simpl.
  - rewrite !bool_decide_eq_true_2; [done..|].
    by apply elem_of_union_l, elem_of_singleton.
  - rewrite !bool_decide_eq_false_2; [done..|].
    intros [_ Hin]%elem_of_difference. apply Hin. by apply elem_of_singleton.
Qed.

Lemma init_theme w :
  AppContext.theme (AppContext.init w)
  = Js.or_default (Browser.getItem "theme" w) "light".
Proof. done. Qed.

(** X9: [handleSetTheme] with a non-empty theme persists it: the state cell
    holds it, a provider mounted on the resulting storage starts with it,
    also after [clearCache], the document carries the class [dark] exactly
    when the theme is ["dark"], and no other key of local storage changes. *)
Theorem theme_persisted (newTheme : string) (w : Browser.t) (d : Document.t)
    (s : AppContext.t) :
  newTheme ≠ "" →
  AppContext.theme (AppContext.handleSetTheme newTheme (w, d, s)).2 = newTheme
  ∧ AppContext.theme
      (AppContext.init (AppContext.handleSetTheme newTheme (w, d, s)).1.1)
    = newTheme
  ∧ (∀ w', AppContext.clearCache
             (Some (AppContext.handleSetTheme newTheme (w, d, s)).1.1) = Some w' →
           AppContext.theme (AppContext.init w') = newTheme)
  ∧ Document.contains "dark" (AppContext.handleSetTheme newTheme (w, d, s)).1.2
    = bool_decide (newTheme = "dark")
  ∧ (∀ k, k ≠ "theme" →
          Browser.getItem k (AppContext.handleSetTheme newTheme (w, d, s)).1.1
          = Browser.getItem k w).
Proof.
  intros Hne.
  change ((AppContext.handleSetTheme newTheme (w, d, s)).1.1)
    with (Browser.setItem "theme" newTheme w).
  change ((AppContext.handleSetTheme newTheme (w, d, s)).1.2)
    with (AppContext.apply_theme_class newTheme d).
  assert (Browser.localStorage (Browser.setItem "theme" newTheme w) !! "theme"
          = Some newTheme) as Hget by apply lookup_insert_eq.
  split_and!.
  - done.
  - rewrite init_theme. unfold Browser.getItem. rewrite Hget. simpl.
    by rewrite truthy_nonempty.
  - intros w' [= <-]. rewrite init_theme. unfold Browser.getItem.
    rewrite clearCache_fold_other by done. rewrite Hget. simpl.
    by rewrite truthy_nonempty.
  - apply contains_apply_theme_class.
  - intros k Hk. unfold Browser.getItem. simpl. by rewrite lookup_insert_ne.
Qed.

Lemma theme_persisted_witness :
  AppContext.theme (AppContext.handleSetTheme "dark" (browser0, document0, app1)).2
  = "dark"
  ∧ AppContext.theme
      (AppContext.init
         (AppContext.handleSetTheme "dark" (browser0, document0, app1)).1.1)
    = "dark"
  ∧ (∀ w', AppContext.clearCache
             (Some (AppContext.handleSetTheme "dark" (browser0, document0, app1)).1.1)
           = Some w' →
           AppContext.theme (AppContext.init w') = "dark")
  ∧ Document.contains "dark"
      (AppContext.handleSetTheme "dark" (browser0, document0, app1)).1.2
    = bool_decide ("dark" = "dark")
  ∧ (∀ k, k ≠ "theme" →
          Browser.getItem k
            (AppContext.handleSetTheme "dark" (browser0, document0, app1)).1.1
          = Browser.getItem k browser0).
Proof.
  apply (theme_persisted "dark" browser0 document0 app1). discriminate.
Defined.

(** X10: after [toggleTheme] the theme is ["dark"] if it was ["light"] and
    ["light"] in every other case, whatever string the cell held; the
    persisted preference and the class of the document agree with it; a
    second toggle gives back ["light"] for ["light"] and ["dark"] for
    anything else. *)
Theorem toggleTheme_normalises (x : Browser.t * Document.t * AppContext.t) :
  AppContext.theme (Layout.toggleTheme x).2
  = (if decide (AppContext.theme x.2 = "light") then "dark" else "light")
  ∧ Browser.getItem "theme" (Layout.toggleTheme x).1.1
    = Some (AppContext.theme (Layout.toggleTheme x).2)
  ∧ Document.contains "dark" (Layout.toggleTheme x).1.2
    = bool_decide (AppContext.theme (Layout.toggleTheme x).2 = "dark")
  ∧ AppContext.theme (Layout.toggleTheme (Layout.toggleTheme x)).2
    = (if decide (AppContext.theme x.2 = "light") then "light" else "dark").
Proof.
  destruct x as [[w d] s]. unfold Layout.toggleTheme. simpl.
  destruct (String.eqb_spec (AppContext.theme s) "light") as [Hl|Hl];
    rewrite ?decide_True, ?decide_False by done; simpl; split_and!; try done;
    try apply lookup_insert_eq; apply contains_apply_theme_class.
Qed.

Example toggleTheme_from_unknown :
  AppContext.theme
    (Layout.toggleTheme (browser0, document0, AppContext.setTheme "sepia" app1)).2
  = "light".
Proof. reflexivity. Qed.

(** ** The sidebar: which navigation item is active *)

Lemma prefix_append (p s : string) :
  String.prefix p s = true ↔ ∃ r, s = p +:+ r.
Proof.
  revert s. induction p as [|a p IH]; intros s.
  - split; [intros _; by exists s|]. intros _. by destruct s.
  - destruct s as [|b s]; simpl.
    + split; [done|]. by intros [r Hr].
    + destruct (Ascii.ascii_dec a b) as [->|Hab].
      * rewrite IH. split.
        -- intros [r ->]. by exists r.
        -- intros [r Hr]. exists r. by injection Hr.
      * split; [done|]. intros [r Hr]. by injection Hr as -> _.
Qed.

Lemma append_assoc (a b c : string) : (a +:+ b) +:+ c = a +:+ (b +:+ c).
Proof.
  induction a as [|x a IH]; [done|].
  change (String x ((a +:+ b) +:+ c) = String x (a +:+ (b +:+ c))).
  by rewrite IH.
Qed.

Lemma isActive_spec pathname path :
  Layout.isActive pathname path = true ↔
  pathname = path ∨ ∃ rest, pathname = path +:+ "/" +:+ rest.
Proof.
  unfold Layout.isActive, Js.startsWith.
  rewrite orb_true_iff, bool_decide_eq_true, prefix_append.
  split; (intros [?|[r Hr]]; [by left|right; exists r]).
  - by rewrite Hr, append_assoc.
  - by rewrite Hr, append_assoc.
Qed.

(** X11: a navigation item is active exactly on its own path and on the
    paths below it, so a path that merely starts with the same letters does
    not activate it; and no path activates two items of the sidebar. *)
Theorem sidebar_active_item (pathname path other : string) :
  (Layout.isActive pathname path = true ↔
   pathname = path ∨ ∃ rest, pathname = path +:+ "/" +:+ rest)
  ∧ (path ∈ Layout.navigation → other ∈ Layout.navigation →
     Layout.isActive pathname path = true →
     Layout.isActive pathname other = true →
     path = other).
Proof.
  split; [apply isActive_spec|].
  intros Hp Ho Hap Hao.
  apply isActive_spec in Hap. apply isActive_spec in Hao.
  unfold Layout.navigation in Hp, Ho.
  repeat (apply elem_of_cons in Hp as [->|Hp]);
    try (by apply elem_of_nil in Hp);
    repeat (apply elem_of_cons in Ho as [->|Ho]);
    try (by apply elem_of_nil in Ho); try done;
    destruct Hap as [->|[r1 ->]]; destruct Hao as [Ho|[r2 Ho]];
    cbv [String.append] in Ho; discriminate.
Qed.

Example editorial_not_editor :
  Layout.isActive "/editor/42" "/editor" = true
  ∧ Layout.isActive "/editorial" "/editor" = false
  ∧ Layout.isActive "/editor" "/editor" = true
  ∧ Layout.isActive "/" "/editor" = false.
Proof. vm_compute. done. Qed.

(** ** The dashboard: validation, creation, loading, deletion *)

Lemma truthy_empty_iff (s : string) : Js.truthy s = false ↔ s = "".
Proof. by destruct s. Qed.

Lemma no_errors_errors_of form :
  DashboardPage.no_errors (DashboardPage.errors_of form) = true ↔
  Js.trim (CreateProjectRequest.name form) ≠ ""
  ∧ 3 ≤ String.length (CreateProjectRequest.name form)
  ∧ (∀ d, CreateProjectRequest.description form = Some d →
          String.length d ≤ 500).
Proof.
  unfold DashboardPage.no_errors, DashboardPage.errors_of. simpl.
  destruct (Js.truthy (Js.trim (CreateProjectRequest.name form))) eqn:Ht; simpl.
  - assert (Js.trim (CreateProjectRequest.name form) ≠ "") as Hne.
    { intros He. apply truthy_empty_iff in He. congruence. }
    destruct (String.length (CreateProjectRequest.name form) <? 3) eqn:Hl.
    + apply Nat.ltb_lt in Hl. split; [done|]. intros (_ & ? & _). lia.
    + apply Nat.ltb_ge in Hl.
      destruct (CreateProjectRequest.description form) as [d|].
      * destruct (Js.truthy d) eqn:Hd; simpl.
        -- destruct (500 <? String.length d) eqn:H5.
           ++ apply Nat.ltb_lt in H5. split; [done|].
              intros (_ & _ & H). specialize (H d eq_refl). lia.
           ++ apply Nat.ltb_ge in H5. split; [|done]. intros _.
              split_and!; try done. by intros ? [= <-].
        -- apply truthy_empty_iff in Hd as ->. split; [|done]. intros _.
           split_and!; try done. intros ? [= <-]. simpl. lia.
      * split; [|done]. intros _. split_and!; done.
  - apply truthy_empty_iff in Ht. split; [done|]. by intros [? _].
Qed.

(** X12: [handleCreateProject] sends its request exactly when the form is
    valid: the name is not blank, has at least 3 characters counted with
    its surrounding white space, and the description has at most 500
    characters; otherwise it only records the validation errors. *)
Theorem create_request_iff_valid (o : Outcome (ApiResponse.t Project.t))
    (now : string) (st : DashboardPage.t) :
  (Js.trim (CreateProjectRequest.name (DashboardPage.createForm st)) ≠ ""
   ∧ 3 ≤ String.length (CreateProjectRequest.name (DashboardPage.createForm st))
   ∧ (∀ d, CreateProjectRequest.description (DashboardPage.createForm st) = Some d →
           String.length d ≤ 500) →
   Browser.network
     (DashboardPage.browser (DashboardPage.handleCreateProject o now st))
   = Browser.network (DashboardPage.browser st)
     ++ [Api.request_interceptor POST "/projects" (DashboardPage.browser st)])
  ∧ (¬ (Js.trim (CreateProjectRequest.name (DashboardPage.createForm st)) ≠ ""
        ∧ 3 ≤ String.length (CreateProjectRequest.name (DashboardPage.createForm st))
        ∧ (∀ d, CreateProjectRequest.description (DashboardPage.createForm st)
                = Some d → String.length d ≤ 500)) →
     DashboardPage.handleCreateProject o now st
     = DashboardPage.setCreateErrors
         (DashboardPage.errors_of (DashboardPage.createForm st)) st).
Proof.
  rewrite <- no_errors_errors_of.
  unfold DashboardPage.handleCreateProject, DashboardPage.validateCreateForm.
  split; intros Hv.
  - rewrite Hv. simpl.
    pose proof (run_network (Call.createProject (DashboardPage.createForm st)) o
                  (DashboardPage.browser st)) as Hn. simpl in Hn.
    by destruct (Api.createProject (DashboardPage.createForm st) o
                   (DashboardPage.browser st)) as [w [p|e]].
  - apply not_true_is_false in Hv. by rewrite Hv.
Qed.

Example padded_name_passes :
  DashboardPage.no_errors
    (DashboardPage.errors_of (CreateProjectRequest.mk "  x" None None)) = true
  ∧ DashboardPage.no_errors
      (DashboardPage.errors_of (CreateProjectRequest.mk "xy" None None)) = false.
Proof. done. Qed.

(** X13: with a valid form, when [createProject] returns, the new project
    is appended to the end of the list, the modal is closed, the form is
    reset and the success message is shown; when it throws, the list, the
    modal and the form with what the user typed are as before and the
    error slot holds a [CREATE_PROJECT_ERROR] with the thrown message;
    either way the loading flag is off. *)
Theorem create_outcome (o : Outcome (ApiResponse.t Project.t)) (now : string)
    (st : DashboardPage.t) :
  DashboardPage.no_errors
    (DashboardPage.errors_of (DashboardPage.createForm st)) = true →
  match (Api.createProject (DashboardPage.createForm st) o
           (DashboardPage.browser st)).2 with
  | Return newProject =>
      AppContext.projects
        (DashboardPage.app (DashboardPage.handleCreateProject o now st))
      = AppContext.projects (DashboardPage.app st) ++ [newProject]
      ∧ AppContext.uiState
          (DashboardPage.app (DashboardPage.handleCreateProject o now st))
        = UIState.mk false None (Some "Project created successfully!")
      ∧ DashboardPage.isCreateModalOpen
          (DashboardPage.handleCreateProject o now st) = false
      ∧ DashboardPage.createForm (DashboardPage.handleCreateProject o now st)
        = CreateProjectRequest.mk "" (Some "") (Some "")
  | Throw error =>
      AppContext.projects
        (DashboardPage.app (DashboardPage.handleCreateProject o now st))
      = AppContext.projects (DashboardPage.app st)
      ∧ AppContext.uiState
          (DashboardPage.app (DashboardPage.handleCreateProject o now st))
        = UIState.mk false
            (Some (AppError.mk "CREATE_PROJECT_ERROR" (JsError.message error)
                     None now))
            None
      ∧ DashboardPage.isCreateModalOpen
          (DashboardPage.handleCreateProject o now st)
        = DashboardPage.isCreateModalOpen st
      ∧ DashboardPage.createForm (DashboardPage.handleCreateProject o now st)
        = DashboardPage.createForm st
  end
  ∧ DashboardPage.createErrors (DashboardPage.handleCreateProject o now st)
    = CreateProjectErrors.empty.
Proof.
  intros Hv.
  assert (DashboardPage.errors_of (DashboardPage.createForm st)
          = CreateProjectErrors.empty) as He.
  { unfold DashboardPage.no_errors in Hv.
    destruct (DashboardPage.errors_of (DashboardPage.createForm st))
      as [[?|] [?|] [?|]]; done. }
  unfold DashboardPage.handleCreateProject, DashboardPage.validateCreateForm.
  rewrite Hv, He. simpl.
  by destruct (Api.createProject (DashboardPage.createForm st) o
                 (DashboardPage.browser st)) as [w [p|e]].
Qed.

Lemma create_outcome_witness :
  (AppContext.projects
     (DashboardPage.app
        (DashboardPage.handleCreateProject (Resolved created) "2024-03-01" dashboard1))
   = [project_a; project_b; project_c]
   ∧ AppContext.uiState
       (DashboardPage.app
          (DashboardPage.handleCreateProject (Resolved created) "2024-03-01"
             dashboard1))
     = UIState.mk false None (Some "Project created successfully!")
   ∧ DashboardPage.isCreateModalOpen
       (DashboardPage.handleCreateProject (Resolved created) "2024-03-01" dashboard1)
     = false
   ∧ DashboardPage.createForm
       (DashboardPage.handleCreateProject (Resolved created) "2024-03-01" dashboard1)
     = CreateProjectRequest.mk "" (Some "") (Some ""))
  ∧ DashboardPage.createErrors
      (DashboardPage.handleCreateProject (Resolved created) "2024-03-01" dashboard1)
    = CreateProjectErrors.empty.
Proof.
  apply (create_outcome (Resolved created) "2024-03-01" dashboard1). reflexivity.
Defined.

(** X14: [loadProjects] asks for page 1 with limit 10; when the request
    resolves, the projects list becomes the [data] of the response whatever
    its [success] flag, and the messages stay; when it is rejected, the
    list stays and the error slot holds a [LOAD_PROJECTS_ERROR] with the
    error's message; either way the loading flag is off afterwards. *)
Theorem loadProjects_outcome (o : Outcome (PaginatedResponse.t Project.t))
    (now : string) (st : DashboardPage.t) :
  Browser.network (DashboardPage.browser (DashboardPage.loadProjects o now st))
  = Browser.network (DashboardPage.browser st)
    ++ [Api.request_interceptor GET "/projects?page=1&limit=10"
          (DashboardPage.browser st)]
  ∧ match o with
    | Resolved response =>
        AppContext.projects (DashboardPage.app (DashboardPage.loadProjects o now st))
        = PaginatedResponse.data response
        ∧ AppContext.uiState
            (DashboardPage.app (DashboardPage.loadProjects o now st))
          = UIState.mk false
              (UIState.error (AppContext.uiState (DashboardPage.app st)))
              (UIState.success (AppContext.uiState (DashboardPage.app st)))
    | Rejected error =>
        AppContext.projects (DashboardPage.app (DashboardPage.loadProjects o now st))
        = AppContext.projects (DashboardPage.app st)
        ∧ AppContext.uiState
            (DashboardPage.app (DashboardPage.loadProjects o now st))
          = UIState.mk false
              (Some (AppError.mk "LOAD_PROJECTS_ERROR" (JsError.message error)
                       None now))
              None
    end.
Proof.
  split.
  - pose proof (run_network (Call.getProjects 1 10) o (DashboardPage.browser st))
      as Hn.
    unfold DashboardPage.loadProjects. simpl in *.
    by destruct (Api.getProjects 1 10 o (DashboardPage.browser st)) as [w [r|e]].
  - by destruct o.
Qed.

Example loadProjects_failed_page :
  AppContext.projects
    (DashboardPage.app
       (DashboardPage.loadProjects (Resolved failed_page) "2024-03-01" dashboard1))
  = [].
Proof. reflexivity. Qed.

(** X15: [handleDeleteProject] does nothing at all without a selected
    project.  With one, it sends a DELETE for that project; when the call
    returns, the projects with the selected project's id are removed from
    the container, the modal is closed and the selection is cleared; when
    it throws, the list, the active project, the selection and the modal
    stay and the error slot holds a [DELETE_PROJECT_ERROR]. *)
Theorem delete_outcome (o : Outcome (ApiResponse.t unit)) (now : string)
    (st : DashboardPage.t) :
  match DashboardPage.selectedProject st with
  | None => DashboardPage.handleDeleteProject o now st = st
  | Some selected =>
      Browser.network
        (DashboardPage.browser (DashboardPage.handleDeleteProject o now st))
      = Browser.network (DashboardPage.browser st)
        ++ [Api.request_interceptor DELETE ("/projects/" +:+ Project.id selected)
              (DashboardPage.browser st)]
      ∧ match (Api.deleteProject (Project.id selected) o
                 (DashboardPage.browser st)).2 with
        | Return _ =>
            DashboardPage.app (DashboardPage.handleDeleteProject o now st)
            = AppContext.setLoading false
                (AppContext.setSuccess (Some "Project deleted successfully!")
                   (AppContext.removeProject (Project.id selected)
                      (DashboardPage.app st)))
            ∧ DashboardPage.isDeleteModalOpen
                (DashboardPage.handleDeleteProject o now st) = false
            ∧ DashboardPage.selectedProject
                (DashboardPage.handleDeleteProject o now st) = None
        | Throw error =>
            AppContext.projects
              (DashboardPage.app (DashboardPage.handleDeleteProject o now st))
            = AppContext.projects (DashboardPage.app st)
            ∧ AppContext.currentProject
                (DashboardPage.app (DashboardPage.handleDeleteProject o now st))
              = AppContext.currentProject (DashboardPage.app st)
            ∧ UIState.error
                (AppContext.uiState
                   (DashboardPage.app (DashboardPage.handleDeleteProject o now st)))
              = Some (AppError.mk "DELETE_PROJECT_ERROR" (JsError.message error)
                        None now)
            ∧ DashboardPage.isDeleteModalOpen
                (DashboardPage.handleDeleteProject o now st)
              = DashboardPage.isDeleteModalOpen st
            ∧ DashboardPage.selectedProject
                (DashboardPage.handleDeleteProject o now st)
              = DashboardPage.selectedProject st
        end
  end.
Proof.
  unfold DashboardPage.handleDeleteProject.
  destruct (DashboardPage.selectedProject st) as [selected|] eqn:Hsel; [|done].
  pose proof (run_network (Call.deleteProject (Project.id selected)) o
                (DashboardPage.browser st)) as Hn.
  simpl in *.
  destruct (Api.deleteProject (Project.id selected) o (DashboardPage.browser st))
    as [w [[]|e]]; simpl in *; split_and!; try done.
  unfold AppContext.removeProject, AppContext.current_has_id. simpl.
  by repeat case_match.
Qed.

Example delete_selected_project :
  AppContext.projects
    (DashboardPage.app
       (DashboardPage.handleDeleteProject
          (Resolved (ApiResponse.mk true None None None)) "2024-03-01" dashboard1))
  = [project_a]
  ∧ AppContext.currentProject
      (DashboardPage.app
         (DashboardPage.handleDeleteProject
            (Resolved (ApiResponse.mk true None None None)) "2024-03-01" dashboard1))
    = None.
Proof. vm_compute. done. Qed.

(** ** The editor: loading, saving, converting, uploading *)

Lemma or_default_self (s : string) : Js.or_default (Some s) "" = s.
Proof. by destruct s. Qed.

(** X16: [loadProject] does nothing without a project id.  With one, when
    [getProject] returns, the project becomes the active project and its
    script the script of the editor, and the displayed storyboard becomes
    the project's storyboard if it has one and otherwise stays the one
    displayed before; when [getProject] throws, the active project, the
    script and the storyboard stay and the error slot holds a
    [LOAD_PROJECT_ERROR]. *)
Theorem loadProject_outcome (id : string)
    (o : Outcome (ApiResponse.t Project.t)) (now : string) (st : EditorPage.t) :
  id ≠ "" →
  EditorPage.loadProject None o now st = st
  ∧ EditorPage.loadProject (Some "") o now st = st
  ∧ match (Api.getProject id o (EditorPage.browser st)).2 with
    | Return project =>
        AppContext.currentProject
          (EditorPage.app (EditorPage.loadProject (Some id) o now st))
        = Some project
        ∧ EditorPage.scriptContent (EditorPage.loadProject (Some id) o now st)
          = Project.scriptContent project
        ∧ EditorPage.storyboard (EditorPage.loadProject (Some id) o now st)
          = match Project.storyboardData project with
            | Some scenes => scenes
            | None => EditorPage.storyboard st
            end
    | Throw error =>
        AppContext.currentProject
          (EditorPage.app (EditorPage.loadProject (Some id) o now st))
        = AppContext.currentProject (EditorPage.app st)
        ∧ EditorPage.scriptContent (EditorPage.loadProject (Some id) o now st)
          = EditorPage.scriptContent st
        ∧ EditorPage.storyboard (EditorPage.loadProject (Some id) o now st)
          = EditorPage.storyboard st
        ∧ AppContext.uiState
            (EditorPage.app (EditorPage.loadProject (Some id) o now st))
          = UIState.mk false
              (Some (AppError.mk "LOAD_PROJECT_ERROR" (JsError.message error)
                       None now))
              None
    end.
Proof.
  intros Hid. split_and!; try done.
  unfold EditorPage.loadProject. rewrite (truthy_nonempty _ Hid).
  cbn [negb EditorPage.browser EditorPage.with_app].
  destruct (Api.getProject id o (EditorPage.browser st)) as [w [project|e]];
    [|done].
  rewrite or_default_self.
  destruct (Project.storyboardData project) eqn:Hsb; simpl; by rewrite Hsb.
Qed.

Lemma loadProject_outcome_witness :
  EditorPage.loadProject None
    (Resolved (ApiResponse.mk true (Some project_d) None None)) "2024-03-01" editor0
  = editor0
  ∧ EditorPage.loadProject (Some "")
      (Resolved (ApiResponse.mk true (Some project_d) None None)) "2024-03-01" editor0
    = editor0
  ∧ (AppContext.currentProject
       (EditorPage.app
          (EditorPage.loadProject (Some "d")
             (Resolved (ApiResponse.mk true (Some project_d) None None))
             "2024-03-01" editor0))
     = Some project_d
     ∧ EditorPage.scriptContent
         (EditorPage.loadProject (Some "d")
            (Resolved (ApiResponse.mk true (Some project_d) None None))
            "2024-03-01" editor0)
       = "EXT. ROOF - DAWN"
     ∧ EditorPage.storyboard
         (EditorPage.loadProject (Some "d")
            (Resolved (ApiResponse.mk true (Some project_d) None None))
            "2024-03-01" editor0)
       = [scene1]).
Proof.
  apply (loadProject_outcome "d"
           (Resolved (ApiResponse.mk true (Some project_d) None None))
           "2024-03-01" editor0).
  discriminate.
Defined.

(** X17: [handleSaveProject] does nothing without an active project.  With
    one, it sends a PUT for the active project's id; when the call returns
    a project, the container is updated with it as by [updateProject], so
    the active project is refreshed exactly when the returned project has
    its id, and the script in the editor is not touched; when the call
    throws, the container's projects and active project stay and the error
    slot holds a [SAVE_PROJECT_ERROR]. *)
Theorem save_outcome (o : Outcome (ApiResponse.t Project.t)) (now : string)
    (st : EditorPage.t) :
  match AppContext.currentProject (EditorPage.app st) with
  | None => EditorPage.handleSaveProject o now st = st
  | Some current =>
      Browser.network (EditorPage.browser (EditorPage.handleSaveProject o now st))
      = Browser.network (EditorPage.browser st)
        ++ [Api.request_interceptor PUT ("/projects/" +:+ Project.id current)
              (EditorPage.browser st)]
      ∧ EditorPage.scriptContent (EditorPage.handleSaveProject o now st)
        = EditorPage.scriptContent st
      ∧ EditorPage.storyboard (EditorPage.handleSaveProject o now st)
        = EditorPage.storyboard st
      ∧ match (Api.updateProject (Project.id current)
                 (UpdateProjectRequest.mk None None
                    (Some (EditorPage.scriptContent st)))
                 o (EditorPage.browser st)).2 with
        | Return updated =>
            AppContext.currentProject
              (EditorPage.app (EditorPage.handleSaveProject o now st))
            = Some (if decide (Project.id current = Project.id updated)
                    then updated else current)
            ∧ AppContext.projects
                (EditorPage.app (EditorPage.handleSaveProject o now st))
              = AppContext.projects
                  (AppContext.updateProject updated (EditorPage.app st))
            ∧ AppContext.uiState
                (EditorPage.app (EditorPage.handleSaveProject o now st))
              = UIState.mk false None (Some "Project saved successfully!")
        | Throw error =>
            AppContext.currentProject
              (EditorPage.app (EditorPage.handleSaveProject o now st))
            = Some current
            ∧ AppContext.projects
                (EditorPage.app (EditorPage.handleSaveProject o now st))
              = AppContext.projects (EditorPage.app st)
            ∧ AppContext.uiState
                (EditorPage.app (EditorPage.handleSaveProject o now st))
              = UIState.mk false
                  (Some (AppError.mk "SAVE_PROJECT_ERROR" (JsError.message error)
                           None now))
                  None
        end
  end.
Proof.
  unfold EditorPage.handleSaveProject.
  destruct (AppContext.currentProject (EditorPage.app st)) as [current|] eqn:Hc;
    [|done].
  pose proof (run_network
                (Call.updateProject (Project.id current)
                   (UpdateProjectRequest.mk None None
                      (Some (EditorPage.scriptContent st))))
                o (EditorPage.browser st)) as Hn.
  simpl in *.
  destruct (Api.updateProject (Project.id current)
              (UpdateProjectRequest.mk None None
                 (Some (EditorPage.scriptContent st)))
              o (EditorPage.browser st)) as [w [updated|e]];
    simpl in *; split_and!; try done.
  - rewrite updateProject_current. simpl. by rewrite Hc.
  - by rewrite !updateProject_projects.
Qed.

(** X18: without an active project (the new-project mode), or with a script
    that is blank, [handleConvertScript] sends nothing and changes nothing
    but the messages: the error slot asks for a script, also when a script
    is there and only the project is missing. *)
Theorem convert_guard (o : Outcome (ApiResponse.t ConversionResponse.t))
    (now : string) (st : EditorPage.t) :
  AppContext.currentProject (EditorPage.app st) = None
  ∨ Js.trim (EditorPage.scriptContent st) = "" →
  EditorPage.handleConvertScript o now st
  = EditorPage.with_app
      (AppContext.setError
         (Some (AppError.mk "CONVERT_ERROR"
                  "Please enter a script before converting" None now)))
      st
  ∧ Browser.network (EditorPage.browser (EditorPage.handleConvertScript o now st))
    = Browser.network (EditorPage.browser st)
  ∧ EditorPage.storyboard (EditorPage.handleConvertScript o now st)
    = EditorPage.storyboard st.
Proof.
  intros Hg.
  assert (EditorPage.handleConvertScript o now st
          = EditorPage.with_app
              (AppContext.setError
                 (Some (AppError.mk "CONVERT_ERROR"
                          "Please enter a script before converting" None now)))
              st) as ->; [|done].
  unfold EditorPage.handleConvertScript.
  destruct Hg as [-> | ->]; [done|].
  by destruct (AppContext.currentProject (EditorPage.app st)).
Qed.

Lemma convert_guard_witness :
  EditorPage.handleConvertScript (Resolved converted) "2024-03-01"
    (EditorPage.init browser0 (AppContext.init browser0))
  = EditorPage.with_app
      (AppContext.setError
         (Some (AppError.mk "CONVERT_ERROR"
                  "Please enter a script before converting" None "2024-03-01")))
      (EditorPage.init browser0 (AppContext.init browser0))
  ∧ Browser.network
      (EditorPage.browser
         (EditorPage.handleConvertScript (Resolved converted) "2024-03-01"
            (EditorPage.init browser0 (AppContext.init browser0))))
    = Browser.network
        (EditorPage.browser (EditorPage.init browser0 (AppContext.init browser0)))
  ∧ EditorPage.storyboard
      (EditorPage.handleConvertScript (Resolved converted) "2024-03-01"
         (EditorPage.init browser0 (AppContext.init browser0)))
    = EditorPage.storyboard (EditorPage.init browser0 (AppContext.init browser0)).
Proof.
  apply (convert_guard (Resolved converted) "2024-03-01"
           (EditorPage.init browser0 (AppContext.init browser0))).
  left. reflexivity.
Defined.

Example convert_in_new_project_mode :
  AppError.message <$>
    UIState.error
      (AppContext.uiState
         (EditorPage.app
            (EditorPage.handleConvertScript (Resolved converted) "2024-03-01"
               (EditorPage.setScriptContent "INT. LAB - DAY"
                  (EditorPage.init browser0 (AppContext.init browser0))))))
  = Some "Please enter a script before converting".
Proof. vm_compute. reflexivity. Qed.

(** X19: [handleFileUpload] does nothing for an empty drop and looks only
    at the first file of a drop.  It sends one POST to ["/files/upload"];
    when the upload returns, the text of the file becomes the script,
    whatever the remote answered, and the upload is marked as succeeded at
    100; when it throws, the script stays, the upload is marked as failed
    with the thrown message and the error slot holds an [UPLOAD_ERROR]; the
    displayed storyboard stays in every case. *)
Theorem upload_outcome (file : File.t) (rest : list File.t)
    (o : Outcome (ApiResponse.t UploadResult.t)) (now : string)
    (st : EditorPage.t) :
  EditorPage.handleFileUpload [] o now st = st
  ∧ EditorPage.handleFileUpload (file :: rest) o now st
    = EditorPage.handleFileUpload [file] o now st
  ∧ Browser.network
      (EditorPage.browser (EditorPage.handleFileUpload (file :: rest) o now st))
    = Browser.network (EditorPage.browser st)
      ++ [Api.request_interceptor POST "/files/upload" (EditorPage.browser st)]
  ∧ EditorPage.storyboard (EditorPage.handleFileUpload (file :: rest) o now st)
    = EditorPage.storyboard st
  ∧ match (Api.uploadFile file
             (Project.id <$> AppContext.currentProject (EditorPage.app st)) o
             (EditorPage.browser st)).2 with
    | Return _ =>
        EditorPage.scriptContent
          (EditorPage.handleFileUpload (file :: rest) o now st)
        = File.text file
        ∧ EditorPage.fileUpload
            (EditorPage.handleFileUpload (file :: rest) o now st)
          = Some (FileUpload.mk file 100 FileUpload.success None)
        ∧ AppContext.uploadProgress
            (EditorPage.app (EditorPage.handleFileUpload (file :: rest) o now st))
          = 100
    | Throw error =>
        EditorPage.scriptContent
          (EditorPage.handleFileUpload (file :: rest) o now st)
        = EditorPage.scriptContent st
        ∧ EditorPage.fileUpload
            (EditorPage.handleFileUpload (file :: rest) o now st)
          = Some (FileUpload.mk file 0 FileUpload.error
                    (Some (JsError.message error)))
        ∧ UIState.error
            (AppContext.uiState
               (EditorPage.app
                  (EditorPage.handleFileUpload (file :: rest) o now st)))
          = Some (AppError.mk "UPLOAD_ERROR" (JsError.message error) None now)
    end.
Proof.
  pose proof (run_network
                (Call.uploadFile file
                   (Project.id <$> AppContext.currentProject (EditorPage.app st)))
                o (EditorPage.browser st)) as Hn.
  unfold EditorPage.handleFileUpload. simpl in *.
  destruct (Api.uploadFile file
              (Project.id <$> AppContext.currentProject (EditorPage.app st)) o
              (EditorPage.browser st)) as [w [r|e]]; by split_and!.
Qed.

Example upload_replaces_script :
  EditorPage.scriptContent
    (EditorPage.handleFileUpload [file0]
       (Resolved (ApiResponse.mk true (Some (UploadResult.mk "/f/1" "scene.txt"))
                    None None))
       "2024-03-01" editor0)
  = "INT. KITCHEN - MORNING".
Proof. reflexivity. Qed.

(** ** The matcher of regular expressions *)

Lemma matches_nil_nullable r s :
  Regex.matches r s → s = [] → Regex.nullable r = true.
Proof.
  induction 1 as [|p c Hp|r1 r2 s1 s2 _ IH1 _ IH2|r1 r2 s _ IH|r1 r2 s _ IH
                 |r|r s1 s2 _ _ _ _]; intros Hs; simpl; try done.
  - apply app_eq_nil in Hs as [-> ->]. by rewrite IH1, IH2.
  - by rewrite IH.
  - rewrite IH by done. apply orb_true_r.
Qed.

Lemma nullable_matches_nil r :
  Regex.nullable r = true → Regex.matches r [].
Proof.
  induction r as [| |p|r1 IH1 r2 IH2|r1 IH1 r2 IH2|r IH]; simpl; intros Hn;
    try done.
  - constructor.
  - apply andb_true_iff in Hn as [H1 H2].
    change (@nil ascii) with (@nil ascii ++ []). constructor; auto.
  - apply orb_true_iff in Hn as [H1|H2].
    + apply Regex.matches_Alt_l; auto.
    + apply Regex.matches_Alt_r; auto.
  - constructor.
Qed.

Lemma nullable_spec r : Regex.nullable r = true ↔ Regex.matches r [].
Proof.
  split; [apply nullable_matches_nil|]. intros H. by eapply matches_nil_nullable.
Qed.

Lemma deriv_sound c r s :
  Regex.matches (Regex.deriv c r) s → Regex.matches r (c :: s).
Proof.
  revert s. induction r as [| |p|r1 IH1 r2 IH2|r1 IH1 r2 IH2|r IH];
    simpl; intros s H.
  - inversion H.
  - inversion H.
  - destruct (p c) eqn:Hp; inversion H; subst. by constructor.
  - destruct (Regex.nullable r1) eqn:Hn.
    + inversion H as [| | | ? ? ? H'| ? ? ? H'| |]; subst.
      * inversion H' as [| |? ? s1 s2 H1 H2| | | |]; subst.
        change (c :: s1 ++ s2) with ((c :: s1) ++ s2). constructor; auto.
      * change (c :: s) with ([] ++ c :: s). constructor; auto.
        by apply nullable_matches_nil.
    + inversion H as [| |? ? s1 s2 H1 H2| | | |]; subst.
      change (c :: s1 ++ s2) with ((c :: s1) ++ s2). constructor; auto.
  - inversion H; subst.
    + apply Regex.matches_Alt_l; auto.
    + apply Regex.matches_Alt_r; auto.
  - inversion H as [| |? ? s1 s2 H1 H2| | | |]; subst.
    change (c :: s1 ++ s2) with ((c :: s1) ++ s2). constructor; auto.
Qed.

Lemma deriv_complete r l :
  Regex.matches r l → ∀ c s, l = c :: s → Regex.matches (Regex.deriv c r) s.
Proof.
  induction 1 as [|p c' Hp|r1 r2 s1 s2 H1 IH1 H2 IH2|r1 r2 s' _ IH|r1 r2 s' _ IH
                 |r|r s1 s2 H1 IH1 H2 IH2]; intros c s Hl; simpl.
  - done.
  - injection Hl as -> <-. rewrite Hp. constructor.
  - destruct s1 as [|c1 s1]; simpl in Hl.
    + subst s2. rewrite (matches_nil_nullable _ _ H1 eq_refl).
      apply Regex.matches_Alt_r. by apply IH2.
    + injection Hl as -> <-.
      destruct (Regex.nullable r1).
      * apply Regex.matches_Alt_l. constructor; auto.
      * constructor; auto.
  - apply Regex.matches_Alt_l. by apply IH.
  - apply Regex.matches_Alt_r. by apply IH.
  - done.
  - destruct s1 as [|c1 s1]; simpl in Hl.
    + by apply IH2.
    + injection Hl as -> <-. constructor; auto.
Qed.

Lemma deriv_spec c r s :
  Regex.matches (Regex.deriv c r) s ↔ Regex.matches r (c :: s).
Proof.
  split; [apply deriv_sound|]. intros H. by eapply deriv_complete.
Qed.

Lemma match_prefix_spec r s :
  Regex.match_prefix r s = true ↔ ∃ m b, s = m ++ b ∧ Regex.matches r m.
Proof.
  revert r. induction s as [|c s IH]; intros r; simpl.
  - rewrite orb_false_r, nullable_spec. split.
    + intros H. by exists [], [].
    + intros (m & b & Hs & H). symmetry in Hs.
      by apply app_eq_nil in Hs as [-> _].
  - rewrite orb_true_iff, nullable_spec, IH. split.
    + intros [H|(m & b & -> & H)].
      * by exists [], (c :: s).
      * exists (c :: m), b. split; [done|]. by apply deriv_spec.
    + intros (m & b & Hs & H). destruct m as [|c' m]; [by left|].
      right. injection Hs as <- ->. exists m, b. split; [done|].
      by apply deriv_spec.
Qed.

Lemma search_spec r s :
  Regex.search r s = true ↔ ∃ a m b, s = a ++ m ++ b ∧ Regex.matches r m.
Proof.
  induction s as [|c s IH]; cbn [Regex.search].
  - rewrite orb_false_r, match_prefix_spec. split.
    + intros (m & b & Hs & H). by exists [], m, b.
    + intros (a & m & b & Hs & H). symmetry in Hs.
      apply app_eq_nil in Hs as [-> Hs]. by exists m, b.
  - rewrite orb_true_iff, match_prefix_spec, IH. split.
    + intros [(m & b & Hs & H)|(a & m & b & -> & H)].
      * by exists [], m, b.
      * by exists (c :: a), m, b.
    + intros (a & m & b & Hs & H). destruct a as [|c' a].
      * left. by exists m, b.
      * right. injection Hs as <- ->. by exists a, m, b.
Qed.

Lemma matches_Cat_inv r1 r2 l :
  Regex.matches (Regex.Cat r1 r2) l ↔
  ∃ l1 l2, l = l1 ++ l2 ∧ Regex.matches r1 l1 ∧ Regex.matches r2 l2.
Proof.
  split.
  - inversion 1; subst. eauto.
  - intros (l1 & l2 & -> & H1 & H2). by constructor.
Qed.

Lemma matches_Sym_inv p l :
  Regex.matches (Regex.Sym p) l ↔ ∃ c, l = [c] ∧ p c = true.
Proof.
  split.
  - inversion 1; subst. eauto.
  - intros (c & -> & Hc). by constructor.
Qed.

Lemma matches_Chr_inv c l : Regex.matches (Regex.Chr c) l ↔ l = [c].
Proof.
  unfold Regex.Chr. rewrite matches_Sym_inv. split.
  - intros (c' & -> & Hc). by apply Ascii.eqb_eq in Hc as ->.
  - intros ->. exists c. split; [done|]. apply Ascii.eqb_refl.
Qed.

Lemma matches_Star_Sym p l :
  Regex.matches (Regex.Star (Regex.Sym p)) l ↔ Forall (λ c, p c = true) l.
Proof.
  split.
  - intros H. remember (Regex.Star (Regex.Sym p)) as r eqn:Hr.
    induction H as [| | | | | |r s1 s2 H1 _ H2 IH2]; try discriminate.
    + constructor.
    + injection Hr as ->. apply Forall_app. split; [|by apply IH2].
      apply matches_Sym_inv in H1 as (c & -> & Hc). by constructor.
  - induction 1 as [|c l Hc _ IH]; [constructor|].
    change (c :: l) with ([c] ++ l). constructor; [by constructor|done].
Qed.

Lemma matches_Plus_Sym p l :
  Regex.matches (Regex.Plus (Regex.Sym p)) l ↔
  l ≠ [] ∧ Forall (λ c, p c = true) l.
Proof.
  unfold Regex.Plus. rewrite matches_Cat_inv. split.
  - intros (l1 & l2 & -> & H1 & H2).
    apply matches_Sym_inv in H1 as (c & -> & Hc).
    apply matches_Star_Sym in H2. split; [done|]. by constructor.
  - intros [Hne Hall]. destruct l as [|c l]; [done|].
    apply Forall_cons in Hall as [Hc Hall].
    exists [c], l. split_and!; [done|by constructor|by apply matches_Star_Sym].
Qed.

Lemma matches_NotSpace_plus l :
  Regex.matches (Regex.Plus Regex.NotSpace) l ↔
  l ≠ [] ∧ Forall (λ c, Js.is_white_space c = false) l.
Proof.
  unfold Regex.NotSpace. rewrite matches_Plus_Sym.
  split; intros [Hne Hall]; (split; [done|]);
    eapply Forall_impl; try exact Hall; intros c; simpl;
    by rewrite negb_true_iff.
Qed.

Lemma matches_email_re m :
  Regex.matches AuthPages.email_re m ↔
  ∃ u v w, m = u ++ "@"%char :: v ++ "."%char :: w
           ∧ (u ≠ [] ∧ Forall (λ c, Js.is_white_space c = false) u)
           ∧ (v ≠ [] ∧ Forall (λ c, Js.is_white_space c = false) v)
           ∧ (w ≠ [] ∧ Forall (λ c, Js.is_white_space c = false) w).
Proof.
  unfold AuthPages.email_re. split.
  - intros H.
    apply matches_Cat_inv in H as (u & l1 & -> & Hu & H).
    apply matches_Cat_inv in H as (x & l2 & -> & Hx & H).
    apply matches_Chr_inv in Hx as ->.
    apply matches_Cat_inv in H as (v & l3 & -> & Hv & H).
    apply matches_Cat_inv in H as (y & w & -> & Hy & Hw).
    apply matches_Chr_inv in Hy as ->.
    apply matches_NotSpace_plus in Hu, Hv, Hw.
    by exists u, v, w.
  - intros (u & v & w & -> & Hu & Hv & Hw).
    apply matches_NotSpace_plus in Hu, Hv, Hw.
    apply matches_Cat_inv. exists u, ("@"%char :: v ++ "."%char :: w).
    split_and!; try done.
    apply matches_Cat_inv. exists ["@"%char], (v ++ "."%char :: w).
    split_and!; [done|by apply matches_Chr_inv|].
    apply matches_Cat_inv. exists v, ("."%char :: w). split_and!; try done.
    apply matches_Cat_inv. exists ["."%char], w.
    split_and!; [done|by apply matches_Chr_inv|done].
Qed.

(** X20: the e-mail check of the sign-in and sign-up forms,
    [/\S+@\S+\.\S+/.test(email)], accepts exactly the strings that contain,
    anywhere, a character that is not white space, an [@], one or more
    characters that are not white space, a dot, and a character that is not
    white space; what comes before and after is not looked at. *)
Theorem email_check_shape (email : string) :
  Regex.test AuthPages.email_re email = true ↔
  ∃ pre a mid b post,
    String.list_ascii_of_string email
    = pre ++ a :: "@"%char :: mid ++ "."%char :: b :: post
    ∧ Js.is_white_space a = false
    ∧ mid ≠ []
    ∧ Forall (λ c, Js.is_white_space c = false) mid
    ∧ Js.is_white_space b = false.
Proof.
  unfold Regex.test. rewrite search_spec.
  setoid_rewrite matches_email_re. split.
  - intros (a0 & m & b0 & -> & u & v & w & -> & [Hu Hau] & [Hv Hav] & [Hw Haw]).
    destruct u as [|a u _] using rev_ind; [done|].
    destruct w as [|b w]; [done|].
    apply Forall_app in Hau as [_ Ha%Forall_inv].
    apply Forall_cons in Haw as [Hb _].
    exists (a0 ++ u), a, v, b, (w ++ b0). split_and!; try done.
    by repeat (rewrite <- ?app_assoc; simpl).
  - intros (pre & a & mid & b & post & -> & Ha & Hm & Hmid & Hb).
    exists pre, (a :: "@"%char :: mid ++ ["."%char; b]), post. split.
    + simpl. do 3 f_equal. by rewrite <- app_assoc.
    + exists [a], mid, [b]. split_and!; try done; by apply Forall_singleton.
Qed.

Example email_checks :
  Regex.test AuthPages.email_re "ada@example.org" = true
  ∧ Regex.test AuthPages.email_re "not an address, but x@y.z" = true
  ∧ Regex.test AuthPages.email_re "ada@example" = false
  ∧ Regex.test AuthPages.email_re "ada @example.org" = false
  ∧ Regex.test AuthPages.email_re "@example.org" = false
  ∧ Regex.test AuthPages.email_re "ada@.org" = false
  ∧ Regex.test AuthPages.email_re "ada@example." = false.
Proof. vm_compute. done. Qed.

Lemma email_error_none email :
  AuthPages.email_error email = None ↔ Regex.test AuthPages.email_re email = true.
Proof.
  unfold AuthPages.email_error. destruct email as [|c email]; simpl; [done|].
  destruct (Regex.test AuthPages.email_re (String c email)); done.
Qed.

Lemma password_error_none password :
  AuthPages.password_error password = None ↔ 6 ≤ String.length password.
Proof.
  unfold AuthPages.password_error.
  destruct password as [|c password]; simpl; [split; [done|lia]|].
  destruct (S (String.length password) <? 6) eqn:Hl.
  - apply Nat.ltb_lt in Hl. split; [done|lia].
  - apply Nat.ltb_ge in Hl. done.
Qed.

(** X21: the sign-in form is valid exactly when the e-mail passes the
    e-mail check and the password has at least 6 characters; the sign-up
    form is valid exactly when, besides, the user name has at least 3
    characters, counted as typed, and the confirmation equals the
    password. *)
Theorem auth_forms_valid (login : AuthPages.LoginPage.t)
    (signup : AuthPages.RegisterPage.t) :
  ((AuthPages.LoginPage.validateForm login).2 = true ↔
   Regex.test AuthPages.email_re
     (LoginRequest.email (AuthPages.LoginPage.formData login)) = true
   ∧ 6 ≤ String.length
           (LoginRequest.password (AuthPages.LoginPage.formData login)))
  ∧ ((AuthPages.RegisterPage.validateForm signup).2 = true ↔
     3 ≤ String.length
           (RegisterRequest.username (AuthPages.RegisterPage.formData signup))
     ∧ Regex.test AuthPages.email_re
         (RegisterRequest.email (AuthPages.RegisterPage.formData signup)) = true
     ∧ 6 ≤ String.length
             (RegisterRequest.password (AuthPages.RegisterPage.formData signup))
     ∧ AuthPages.RegisterPage.confirmPassword signup
       = RegisterRequest.password (AuthPages.RegisterPage.formData signup)).
Proof.
  split.
  - unfold AuthPages.LoginPage.validateForm, AuthPages.LoginPage.newErrors. simpl.
    rewrite <- email_error_none, <- password_error_none.
    destruct (AuthPages.email_error _), (AuthPages.password_error _);
      split; try done; by intros [? ?].
  - unfold AuthPages.RegisterPage.validateForm, AuthPages.RegisterPage.newErrors.
    simpl. rewrite <- email_error_none, <- password_error_none.
    destruct signup as [[username email password] confirm errs loading err].
    simpl.
    destruct (AuthPages.email_error email) eqn:He;
      [by destruct (negb (Js.truthy username)), (String.length username <? 3);
          split; try done; intros (_ & ? & _)|].
    destruct (AuthPages.password_error password) eqn:Hp;
      [by destruct (negb (Js.truthy username)), (String.length username <? 3);
          split; try done; intros (_ & _ & ? & _)|].
    apply password_error_none in Hp.
    destruct username as [|c username]; simpl; [split; [done|]; intros [? _]; lia|].
    destruct (S (String.length username) <? 3) eqn:Hu.
    { apply Nat.ltb_lt in Hu. split; [done|]. intros [? _]. lia. }
    apply Nat.ltb_ge in Hu.
    destruct confirm as [|c' confirm]; simpl.
    { split; [done|]. intros (_ & _ & _ & <-). simpl in Hp. lia. }
    destruct (String.eqb_spec password (String c' confirm)) as [->|Hne]; simpl.
    + by split.
    + split; [done|]. intros (_ & _ & _ & ?). congruence.
Qed.

Example signup_needs_matching_confirmation :
  (AuthPages.RegisterPage.validateForm
     (AuthPages.RegisterPage.mk
        (RegisterRequest.mk "ada" "ada@example.org" "secret1") "secret2"
        (AuthPages.RegisterPage.mkErrors None None None None) false "")).1
  = AuthPages.RegisterPage.mk
      (RegisterRequest.mk "ada" "ada@example.org" "secret1") "secret2"
      (AuthPages.RegisterPage.mkErrors None None None
         (Some "Passwords do not match")) false "".
Proof. vm_compute. reflexivity. Qed.

(** ** Across the page handlers *)

Ltac handler_cases :=
  unfold DashboardPage.loadProjects, DashboardPage.handleCreateProject,
    DashboardPage.validateCreateForm, DashboardPage.handleDeleteProject,
    EditorPage.loadProject, EditorPage.handleSaveProject,
    EditorPage.handleConvertScript, EditorPage.handleFileUpload;
  repeat case_match; simpl in *; simplify_eq/=.

(** X22: no handler of the dashboard or of the editor brings the container
    into a state that shows an error and a success message at once: if the
    two slots are not both occupied before a handler runs, they are not
    both occupied after it, however its request settles. *)
Theorem handlers_keep_messages_exclusive (now : string)
    (d : DashboardPage.t) (e : EditorPage.t)
    (o1 : Outcome (PaginatedResponse.t Project.t))
    (o2 o4 o5 : Outcome (ApiResponse.t Project.t))
    (o3 : Outcome (ApiResponse.t unit))
    (o6 : Outcome (ApiResponse.t ConversionResponse.t))
    (o7 : Outcome (ApiResponse.t UploadResult.t))
    (projectId : option string) (files : list File.t) :
  (AppContext.both_set (DashboardPage.app d) = false →
   AppContext.both_set (DashboardPage.app (DashboardPage.loadProjects o1 now d))
   = false
   ∧ AppContext.both_set
       (DashboardPage.app (DashboardPage.handleCreateProject o2 now d)) = false
   ∧ AppContext.both_set
       (DashboardPage.app (DashboardPage.handleDeleteProject o3 now d)) = false)
  ∧ (AppContext.both_set (EditorPage.app e) = false →
     AppContext.both_set
       (EditorPage.app (EditorPage.loadProject projectId o4 now e)) = false
     ∧ AppContext.both_set
         (EditorPage.app (EditorPage.handleSaveProject o5 now e)) = false
     ∧ AppContext.both_set
         (EditorPage.app (EditorPage.handleConvertScript o6 now e)) = false
     ∧ AppContext.both_set
         (EditorPage.app (EditorPage.handleFileUpload files o7 now e)) = false).
Proof.
  split; intros Hb; split_and!; handler_cases; done.
Qed.

(** X23: on whichever page it happens, a request that a handler sends and
    that is rejected with status 401 ends the session in the browser: the
    token is gone and the location is ["/login"] when the handler is done.
    A handler whose guard sent nothing leaves the request log as it was. *)
Theorem unauthorized_in_any_handler (now : string) (err : JsError.t)
    (d : DashboardPage.t) (e : EditorPage.t)
    (projectId : option string) (files : list File.t) :
  JsError.response_status err = Some 401 →
  session_ended
    (DashboardPage.browser (DashboardPage.loadProjects (Rejected err) now d))
  ∧ (Browser.network
       (DashboardPage.browser (DashboardPage.handleCreateProject (Rejected err) now d))
     ≠ Browser.network (DashboardPage.browser d) →
     session_ended
       (DashboardPage.browser
          (DashboardPage.handleCreateProject (Rejected err) now d)))
  ∧ (Browser.network
       (DashboardPage.browser (DashboardPage.handleDeleteProject (Rejected err) now d))
     ≠ Browser.network (DashboardPage.browser d) →
     session_ended
       (DashboardPage.browser
          (DashboardPage.handleDeleteProject (Rejected err) now d)))
  ∧ (Browser.network
       (EditorPage.browser (EditorPage.loadProject projectId (Rejected err) now e))
     ≠ Browser.network (EditorPage.browser e) →
     session_ended
       (EditorPage.browser (EditorPage.loadProject projectId (Rejected err) now e)))
  ∧ (Browser.network
       (EditorPage.browser (EditorPage.handleSaveProject (Rejected err) now e))
     ≠ Browser.network (EditorPage.browser e) →
     session_ended
       (EditorPage.browser (EditorPage.handleSaveProject (Rejected err) now e)))
  ∧ (Browser.network
       (EditorPage.browser (EditorPage.handleConvertScript (Rejected err) now e))
     ≠ Browser.network (EditorPage.browser e) →
     session_ended
       (EditorPage.browser (EditorPage.handleConvertScript (Rejected err) now e)))
  ∧ (Browser.network
       (EditorPage.browser (EditorPage.handleFileUpload files (Rejected err) now e))
     ≠ Browser.network (EditorPage.browser e) →
     session_ended
       (EditorPage.browser (EditorPage.handleFileUpload files (Rejected err) now e))).
Proof.
  intros H401. unfold session_ended.
  split_and!; try intros Hsent;
    unfold DashboardPage.loadProjects, DashboardPage.handleCreateProject,
      DashboardPage.validateCreateForm, DashboardPage.handleDeleteProject,
      EditorPage.loadProject, EditorPage.handleSaveProject,
      EditorPage.handleConvertScript, EditorPage.handleFileUpload in *;
    unfold_api; rewrite ?response_interceptor_401 in * by done;
    repeat case_match; simpl in *; simplify_eq/=; try done;
    rewrite ?response_interceptor_401 in * by done; try done;
    try (split; [|done]);
    unfold Api.getToken, Api.clearToken, Browser.getItem; simpl;
    apply lookup_delete_eq.
Qed.

Lemma unauthorized_in_any_handler_witness :
  session_ended
    (DashboardPage.browser
       (DashboardPage.loadProjects (Rejected unauthorized) "2024-03-01" dashboard1))
  ∧ session_ended
      (EditorPage.browser
         (EditorPage.handleSaveProject (Rejected unauthorized) "2024-03-01" editor0)).
Proof.
  destruct (unauthorized_in_any_handler "2024-03-01" unauthorized dashboard1
              editor0 None [] eq_refl)
    as (Hload & _ & _ & _ & Hsave & _).
  split; [exact Hload|]. apply Hsave. vm_compute. discriminate.
Defined.
